(** * doormon_monitor: a shallow embedding of scripts/doormon_monitor.py

    The script discovers a device over mDNS, polls its /status endpoint once
    a second, reports false-to-true edges of the "triggered" field and slow
    responses, and posts /reset when the user types "r" or "reset".

    Everything outside the script (the monotonic clock, the network, the
    codec and JSON libraries, the lines typed on standard input, the mDNS
    advertisements) is a [World] or an explicit argument; everything the
    script does to the outside (printing, sleeping, HTTP requests) is
    appended to a trace. *)

From Stdlib Require Import ZArith NArith List String Ascii Bool Lia.
From Stdlib Require Import Floats DecimalString.
From Stdlib Require Import Strings.Byte.
Import ListNotations.

Open Scope string_scope.
Open Scope list_scope.

(* ================================================================== *)
(** ** Python strings

    A [string] is read as a Python [str] whose code points are all below
    256; [isspace] and [lower] are Python's on that range. *)

Module PyStr.

Definition code (c : ascii) : N := N_of_ascii c.

(** [str.isspace] on one character: TAB..CR, FS..US, space, NEL, NBSP. *)
Definition isspace (c : ascii) : bool :=
  let n := code c in
  ((9 <=? n) && (n <=? 13) || (28 <=? n) && (n <=? 32)
   || (n =? 133) || (n =? 160))%N.

(** [str.lower] on one character: A..Z and the Latin-1 capitals
    (U+00C0..U+00DE without the multiplication sign) move up by 32. *)
Definition lower_char (c : ascii) : ascii :=
  let n := code c in
  if ((65 <=? n) && (n <=? 90)
      || (192 <=? n) && (n <=? 222) && negb (n =? 215))%N
  then ascii_of_N (n + 32) else c.

Fixpoint lower (s : string) : string :=
  match s with
  | EmptyString => EmptyString
  | String c s' => String (lower_char c) (lower s')
  end.

Fixpoint lstrip (s : string) : string :=
  match s with
  | EmptyString => EmptyString
  | String c s' => if isspace c then lstrip s' else s
  end.

Fixpoint rstrip (s : string) : string :=
  match s with
  | EmptyString => EmptyString
  | String c s' =>
      match rstrip s' with
      | EmptyString => if isspace c then EmptyString else String c EmptyString
      | r => String c r
      end
  end.

(** [s.strip()] *)
Definition strip (s : string) : string := rstrip (lstrip s).

(** [needle in hay] *)
Fixpoint contains (needle hay : string) : bool :=
  String.prefix needle hay
  || match hay with
     | EmptyString => false
     | String _ hay' => contains needle hay'
     end.

(** [str(n)] for an int, as an f-string renders it. *)
Definition of_int (n : Z) : string := NilZero.string_of_int (Z.to_int n).

(** Decimal rendering of one byte. *)
Definition of_byte (b : byte) : string :=
  NilZero.string_of_uint (N.to_uint (Byte.to_N b)).

End PyStr.

(* ================================================================== *)
(** ** Python values, as [json.loads] produces them *)

#[local] Set Warnings "-register-all".
#[local] Set Warnings "-inexact-float".

Inductive pyval : Type :=
| PyNone
| PyBool (b : bool)
| PyInt (n : Z)
| PyFloat (x : float)
| PyStr (s : string)
| PyList (l : list pyval)
| PyDict (d : list (string * pyval)).

(** [v is None], [v is False], [v is True]: identity with the singletons. *)
Definition is_None (v : pyval) : bool :=
  match v with PyNone => true | _ => false end.
Definition is_False (v : pyval) : bool :=
  match v with PyBool false => true | _ => false end.
Definition is_True (v : pyval) : bool :=
  match v with PyBool true => true | _ => false end.

Fixpoint dict_lookup (d : list (string * pyval)) (k : string) : option pyval :=
  match d with
  | [] => None
  | (k', v) :: d' => if String.eqb k' k then Some v else dict_lookup d' k
  end.

(* ================================================================== *)
(** ** Exceptions, effects and the monad of the script *)

(** The subclasses of [Exception] that the network stack, the codec and the
    JSON parser raise. *)
Inductive exn : Type :=
| URLError            (* connection refused, no route, name not resolved *)
| TimeoutError        (* socket timeout *)
| HTTPError (code : Z)  (* urlopen on an error status *)
| UnicodeDecodeError
| JSONDecodeError
| AttributeError.

(** What can travel up the Python stack: an [Exception], or one of the two
    [BaseException]s of the script, which [except Exception] lets through. *)
Inductive raised : Type :=
| Exception (e : exn)
| KeyboardInterrupt
| SystemExit (status : Z).

Inductive outcome (A : Type) : Type :=
| Return (a : A)
| Raise (r : raised).
Arguments Return {A} a.
Arguments Raise {A} r.

(** A library call either returns or raises an [Exception]. *)
Definition result (A : Type) : Type := (exn + A)%type.

Record Request := mkRequest {
  url : string;
  method : option string;
  data : option (list byte)
}.

(** [Request.get_method()] *)
Definition get_method (r : Request) : string :=
  match method r with
  | Some m => m
  | None => match data r with Some _ => "POST" | None => "GET" end
  end.

Record Response := mkResponse {
  getcode : Z;                    (* resp.getcode() *)
  read : result (list byte)       (* resp.read() *)
}.

(** The lines the script prints; a payload is the value formatted into the
    line. *)
Inductive message : Type :=
| MsgDiscovering
| MsgNoDevice
| MsgFound (host : string) (port : Z)
| MsgPollingHelp
| MsgBlank
| MsgResetCleared
| MsgResetFailed
| MsgError (elapsed : float)
| MsgSlow (elapsed : float)
| MsgTriggered
| MsgBye.

Inductive effect : Type :=
| Print (m : message)
| PrintErr (m : message)
| Sleep (secs : float)
| Urlopen (req : Request) (timeout : float)
| ZeroconfOpen
| BrowserStart (service_type : string)
| BrowserCancel
| ZeroconfClose.

Record World := mkWorld {
  monotonic : nat -> float;
    (* the k-th reading of time.monotonic() *)
  urlopen : nat -> Request -> float -> result Response;
    (* what the k-th call of urllib.request.urlopen does *)
  decode : list byte -> result string;
    (* bytes.decode() *)
  json_loads : string -> result pyval
    (* json.loads *)
}.

Record State := mkState {
  clock_reads : nat;      (* readings of the clock taken so far *)
  net_calls : nat;        (* calls of urlopen made so far *)
  trace : list effect     (* effects so far, oldest first *)
}.

Definition initial_state : State := mkState 0 0 [].

Definition M (A : Type) : Type := State -> outcome A * State.

Definition ret {A} (a : A) : M A := fun s => (Return a, s).

Definition bind {A B} (m : M A) (k : A -> M B) : M B :=
  fun s =>
    match m s with
    | (Return a, s') => k a s'
    | (Raise r, s') => (Raise r, s')
    end.

Definition raise {A} (r : raised) : M A := fun s => (Raise r, s).

(** [try: body / except Exception: handler] *)
Definition try_except_Exception {A} (body : M A) (handler : M A) : M A :=
  fun s =>
    match body s with
    | (Raise (Exception _), s') => handler s'
    | other => other
    end.

(** [try: body / except KeyboardInterrupt: handler] *)
Definition try_except_KeyboardInterrupt {A} (body : M A) (handler : M A)
  : M A :=
  fun s =>
    match body s with
    | (Raise KeyboardInterrupt, s') => handler s'
    | other => other
    end.

Declare Scope py_scope.
Delimit Scope py_scope with py.
Notation "x <- m ;; k" := (bind m (fun x => k))
  (at level 61, m at next level, right associativity) : py_scope.
Notation "m ;;; k" := (bind m (fun _ => k))
  (at level 61, right associativity) : py_scope.
Open Scope py_scope.

Definition emit (e : effect) : M unit :=
  fun s => (Return tt, mkState (clock_reads s) (net_calls s) (trace s ++ [e])).

Definition print (m : message) : M unit := emit (Print m).
Definition print_stderr (m : message) : M unit := emit (PrintErr m).
Definition time_sleep (secs : float) : M unit := emit (Sleep secs).

(** A library call's result enters the monad. *)
Definition lift {A} (r : result A) : M A :=
  match r with
  | inl e => raise (Exception e)
  | inr a => ret a
  end.

Definition SERVICE_TYPE : string := "_http._tcp.local.".
Definition INSTANCE_NAME : string := "Doormon".
Definition POLL_INTERVAL : float := 1.0%float.
Definition SLOW_RESPONSE_THRESHOLD : float := 3.0%float.
Definition DISCOVERY_TIMEOUT : float := 15.0%float.
Definition default_timeout : float := 4.0%float.

(* ================================================================== *)
(** ** Discovery: the listener *)

(** A [ServiceInfo] as the listener looks at it: [addresses] and [address]
    may be missing attributes ([None] here), [address] and [port] may hold
    Python's [None]. *)
Record ServiceInfo := mkServiceInfo {
  addresses : option (list (list byte));
  address : option (option (list byte));
  port : option Z
}.

(** One call of [add_service] by the browser: the advertised name and what
    [zc.get_service_info(type_, name)] answers for it. *)
Record Advert := mkAdvert {
  name : string;
  service_info : option ServiceInfo
}.

Definition Address : Type := (string * Z)%type.

(** [socket.inet_ntoa(addr)] *)
Definition inet_ntoa (addr : list byte) : string :=
  String.concat "." (map PyStr.of_byte addr).

(** The list [addrs] that the listener walks. *)
Definition addrs_of (info : ServiceInfo) : list (option (list byte)) :=
  match addresses info with
  | Some (a :: l) => map Some (a :: l)
  | _ => match address info with
         | Some a => [a]
         | None => []
         end
  end.

(** [info.port or 80] *)
Definition port_or_80 (info : ServiceInfo) : Z :=
  match port info with
  | Some p => if (p =? 0)%Z then 80%Z else p
  | None => 80%Z
  end.

(** The [for addr in addrs] loop: the first entry that is not [None] and has
    length 4. *)
Fixpoint first_ipv4 (addrs : list (option (list byte))) : option (list byte) :=
  match addrs with
  | [] => None
  | Some addr :: rest =>
      if (List.length addr =? 4)%nat then Some addr else first_ipv4 rest
  | None :: rest => first_ipv4 rest
  end.

(** [Listener.add_service]; [result] is the cell [result["info"]]. *)
Definition add_service (result : option Address) (ad : Advert)
  : option Address :=
  match result with
  | Some _ => result
  | None =>
      match service_info ad with
      | None => result
      | Some info =>
          if negb (PyStr.contains (PyStr.lower INSTANCE_NAME)
                                  (PyStr.lower (name ad)))
          then result
          else match first_ipv4 (addrs_of info) with
               | Some addr => Some (inet_ntoa addr, port_or_80 info)
               | None => result
               end
      end
  end.

(** The browser thread delivering a batch of advertisements, in order. *)
Definition browser_thread (batch : list Advert) (result : option Address)
  : option Address :=
  fold_left add_service batch result.

(* ================================================================== *)
(** ** The input thread and the variables of the polling loop *)

(** [line.strip().lower() in ("r", "reset")] *)
Definition is_reset_command (line : string) : bool :=
  let cmd := PyStr.lower (PyStr.strip line) in
  String.eqb cmd "r" || String.eqb cmd "reset".

(** The variables of [main] that live across poll cycles, and whether the
    input thread is still in its loop. *)
Record Loop := mkLoop {
  prev_triggered : pyval;
  reset_requested : bool;
  reader_running : bool
}.

Definition initial_loop : Loop := mkLoop PyNone false true.

(** [input_thread] reading the given lines, one [readline] each: an empty
    line is end of input and leaves the loop; a reset command sets the
    flag. *)
Fixpoint input_thread (lines : list string) (l : Loop) : Loop :=
  match lines with
  | [] => l
  | line :: rest =>
      if negb (reader_running l) then l
      else if String.eqb line ""
      then mkLoop (prev_triggered l) (reset_requested l) false
      else if is_reset_command line
      then input_thread rest (mkLoop (prev_triggered l) true true)
      else input_thread rest l
  end.

(** What the input thread reads during one poll cycle: [typed] up to the
    loop's [is_set()], [racing] between [is_set()] and [clear()]. Lines read
    later in the cycle belong to the next cycle's [typed]. *)
Record CycleInput := mkCycleInput {
  typed : list string;
  racing : list string
}.

(** The advertisements during discovery: [ticks] holds, per test of the
    [while] condition, those delivered since the previous test; [late] those
    delivered between the last test and [browser.cancel()]. The user
    interrupts when [ticks] runs out. *)
Record Adverts := mkAdverts {
  ticks : list (list Advert);
  late : list Advert
}.

(* ================================================================== *)
(** ** The script's functions *)

Section Script.

Variable w : World.

Definition time_monotonic : M float :=
  fun s => (Return (monotonic w (clock_reads s)),
            mkState (S (clock_reads s)) (net_calls s) (trace s)).

Definition urllib_urlopen (req : Request) (timeout : float) : M Response :=
  fun s =>
    lift (urlopen w (net_calls s) req timeout)
         (mkState (clock_reads s) (S (net_calls s))
                  (trace s ++ [Urlopen req timeout])).

(** [obj.get(key, default)]: only a dict has the method. *)
Definition py_get (obj : pyval) (key : string) (default : pyval) : M pyval :=
  match obj with
  | PyDict d =>
      ret (match dict_lookup d key with Some v => v | None => default end)
  | _ => raise (Exception AttributeError)
  end.

Definition status_url (host : string) (port : Z) : string :=
  "http://" ++ host ++ ":" ++ PyStr.of_int port ++ "/status".

Definition reset_url (host : string) (port : Z) : string :=
  "http://" ++ host ++ ":" ++ PyStr.of_int port ++ "/reset".

(** [get_status(host, port, timeout)] *)
Definition get_status (host : string) (port : Z) (timeout : float)
  : M (pyval * float) :=
  let req := mkRequest (status_url host port) None None in
  t0 <- time_monotonic ;;
  try_except_Exception
    (resp <- urllib_urlopen req timeout ;;
     raw <- lift (read resp) ;;
     data <- lift (decode w raw) ;;
     t1 <- time_monotonic ;;
     let elapsed := (t1 - t0)%float in
     obj <- lift (json_loads w data) ;;
     v <- py_get obj "triggered" (PyBool false) ;;
     ret (v, elapsed))
    (t1 <- time_monotonic ;;
     let elapsed := (t1 - t0)%float in
     ret (PyNone, elapsed)).

(** [post_reset(host, port, timeout)] *)
Definition post_reset (host : string) (port : Z) (timeout : float) : M bool :=
  let req := mkRequest (reset_url host port) (Some "POST") (Some []) in
  try_except_Exception
    (resp <- urllib_urlopen req timeout ;;
     ret (getcode resp =? 200)%Z)
    (ret false).

(** The [while result["info"] is None and time.monotonic() < deadline] loop
    of [discover_device], up to [return result["info"]]. *)
Fixpoint discover_wait (deadline : float) (ticks : list (list Advert))
    (late : list Advert) (result : option Address) : M (option Address) :=
  match ticks with
  | [] => raise KeyboardInterrupt
  | batch :: rest =>
      let result := browser_thread batch result in
      match result with
      | Some _ =>
          emit BrowserCancel ;;; emit ZeroconfClose ;;; ret result
      | None =>
          now <- time_monotonic ;;
          if (now <? deadline)%float
          then time_sleep 0.2%float ;;;
               discover_wait deadline rest late result
          else let result := browser_thread late result in
               emit BrowserCancel ;;; emit ZeroconfClose ;;; ret result
      end
  end.

(** [discover_device()] *)
Definition discover_device (ads : Adverts) : M (option Address) :=
  emit ZeroconfOpen ;;;
  emit (BrowserStart SERVICE_TYPE) ;;;
  t <- time_monotonic ;;
  let deadline := (t + DISCOVERY_TIMEOUT)%float in
  discover_wait deadline (ticks ads) (late ads) None.

(** Lines 132-138 of [main]: the reset request. *)
Definition reset_step (host : string) (port : Z) (inp : CycleInput) (l : Loop)
  : M Loop :=
  if reset_requested l then
    let l := input_thread (racing inp) l in
    let l := mkLoop (prev_triggered l) false (reader_running l) in
    ok <- post_reset host port default_timeout ;;
    if ok : bool then
      print MsgResetCleared ;;;
      ret (mkLoop (PyBool false) (reset_requested l) (reader_running l))
    else
      print MsgResetFailed ;;;
      ret l
  else ret l.

(** Lines 141-148 of [main]: what is done with one sample. *)
Definition report (sample : pyval * float) (l : Loop) : M Loop :=
  let '(triggered, elapsed) := sample in
  if is_None triggered then
    print (MsgError elapsed) ;;;
    ret l
  else
    (if (SLOW_RESPONSE_THRESHOLD <? elapsed)%float
     then print (MsgSlow elapsed) else ret tt) ;;;
    (if is_False (prev_triggered l) && is_True triggered
     then print MsgTriggered else ret tt) ;;;
    ret (mkLoop triggered (reset_requested l) (reader_running l)).

(** One turn of the [while True] loop of [main]. *)
Definition cycle (host : string) (port : Z) (inp : CycleInput) (l : Loop)
  : M Loop :=
  let l := input_thread (typed inp) l in
  l <- reset_step host port inp l ;;
  sample <- get_status host port default_timeout ;;
  l <- report sample l ;;
  time_sleep POLL_INTERVAL ;;;
  ret l.

(** The [while True] loop: one [cycle] per input; the user interrupts when
    the inputs run out. *)
Fixpoint poll_loop (host : string) (port : Z) (inputs : list CycleInput)
    (l : Loop) : M unit :=
  match inputs with
  | [] => raise KeyboardInterrupt
  | inp :: rest =>
      l <- cycle host port inp l ;;
      poll_loop host port rest l
  end.

(** [main()] *)
Definition main (ads : Adverts) (inputs : list CycleInput) : M unit :=
  print MsgDiscovering ;;;
  addr <- discover_device ads ;;
  match addr with
  | None =>
      print_stderr MsgNoDevice ;;;
      raise (SystemExit 1)
  | Some (host, port) =>
      print (MsgFound host port) ;;;
      print MsgPollingHelp ;;;
      print MsgBlank ;;;
      try_except_KeyboardInterrupt
        (poll_loop host port inputs initial_loop)
        (print MsgBye)
  end.

End Script.

(* ================================================================== *)
(** ** What the two HTTP helpers compute, as functions of the state *)

Section Helpers.

Variable w : World.

Definition status_request (host : string) (port : Z) : Request :=
  mkRequest (status_url host port) None None.

Definition reset_request (host : string) (port : Z) : Request :=
  mkRequest (reset_url host port) (Some "POST") (Some []).

(** The body of the try block of [get_status] up to [json.loads]: the
    decoded text, or the exception that ended it. *)
Definition fetch_text (req : Request) (timeout : float) (k : nat)
  : result string :=
  match urlopen w k req timeout with
  | inl e => inl e
  | inr resp =>
      match read resp with
      | inl e => inl e
      | inr raw => decode w raw
      end
  end.

(** [json.loads(data)] followed by [obj.get("triggered", False)]. *)
Definition parse_triggered (text : string) : result pyval :=
  match json_loads w text with
  | inl e => inl e
  | inr (PyDict d) =>
      inr (match dict_lookup d "triggered" with
           | Some v => v
           | None => PyBool false
           end)
  | inr _ => inl AttributeError
  end.

(** The pair [get_status] returns when called in state [s]. *)
Definition sample_at (host : string) (port : Z) (timeout : float) (s : State)
  : pyval * float :=
  let t0 := monotonic w (clock_reads s) in
  let t1 := monotonic w (S (clock_reads s)) in
  let t2 := monotonic w (S (S (clock_reads s))) in
  match fetch_text (status_request host port) timeout (net_calls s) with
  | inl _ => (PyNone, (t1 - t0)%float)
  | inr text =>
      match parse_triggered text with
      | inl _ => (PyNone, (t2 - t0)%float)
      | inr v => (v, (t1 - t0)%float)
      end
  end.

(** The number of clock readings [get_status] takes when called in [s]. *)
Definition sample_reads (host : string) (port : Z) (timeout : float)
    (s : State) : nat :=
  match fetch_text (status_request host port) timeout (net_calls s) with
  | inl _ => 2
  | inr text =>
      match parse_triggered text with
      | inl _ => 3
      | inr _ => 2
      end
  end.

(** The boolean [post_reset] returns when called in state [s]. *)
Definition reset_ok_at (host : string) (port : Z) (timeout : float)
    (s : State) : bool :=
  match urlopen w (net_calls s) (reset_request host port) timeout with
  | inl _ => false
  | inr resp => (getcode resp =? 200)%Z
  end.

(** What [reset_step] leaves in the loop's variables, and what it adds to
    the trace, when entered with [l] in state [s]. *)
Definition reset_loop (host : string) (port : Z) (inp : CycleInput)
    (l : Loop) (s : State) : Loop :=
  if reset_requested l then
    let l' := input_thread (racing inp) l in
    mkLoop (if reset_ok_at host port default_timeout s
            then PyBool false else prev_triggered l')
           false (reader_running l')
  else l.

Definition reset_events (host : string) (port : Z) (l : Loop) (s : State)
  : list effect :=
  if reset_requested l then
    [Urlopen (reset_request host port) default_timeout;
     Print (if reset_ok_at host port default_timeout s
            then MsgResetCleared else MsgResetFailed)]
  else [].

Definition reset_state (l : Loop) (s : State) : State :=
  if reset_requested l
  then mkState (clock_reads s) (S (net_calls s)) (trace s)
  else s.

(** The same for [report]. *)
Definition report_loop (sample : pyval * float) (l : Loop) : Loop :=
  if is_None (fst sample) then l
  else mkLoop (fst sample) (reset_requested l) (reader_running l).

Definition report_events (sample : pyval * float) (l : Loop) : list effect :=
  if is_None (fst sample) then [Print (MsgError (snd sample))]
  else
    (if (SLOW_RESPONSE_THRESHOLD <? snd sample)%float
     then [Print (MsgSlow (snd sample))] else [])
    ++ (if is_False (prev_triggered l) && is_True (fst sample)
        then [Print MsgTriggered] else []).

(** One cycle entered with [l] in state [s]: the loop variables as the poll
    finds them, the sample polled, the variables at the end, and the effects
    of the cycle. *)
Definition before_poll (host : string) (port : Z) (inp : CycleInput)
    (l : Loop) (s : State) : Loop :=
  reset_loop host port inp (input_thread (typed inp) l) s.

Definition cycle_sample (host : string) (port : Z) (inp : CycleInput)
    (l : Loop) (s : State) : pyval * float :=
  sample_at host port default_timeout
            (reset_state (input_thread (typed inp) l) s).

Definition cycle_loop (host : string) (port : Z) (inp : CycleInput)
    (l : Loop) (s : State) : Loop :=
  report_loop (cycle_sample host port inp l s) (before_poll host port inp l s).

Definition cycle_events (host : string) (port : Z) (inp : CycleInput)
    (l : Loop) (s : State) : list effect :=
  reset_events host port (input_thread (typed inp) l) s
  ++ [Urlopen (status_request host port) default_timeout]
  ++ report_events (cycle_sample host port inp l s)
                   (before_poll host port inp l s)
  ++ [Sleep POLL_INTERVAL].

(** The first turns of the [while True] loop, one per input. *)
Fixpoint run_cycles (host : string) (port : Z) (inputs : list CycleInput)
    (l : Loop) : M Loop :=
  match inputs with
  | [] => ret l
  | inp :: rest =>
      l <- cycle w host port inp l ;;
      run_cycles host port rest l
  end.

End Helpers.

(** Recognisers of effects in a trace. *)
Definition is_triggered_event (e : effect) : bool :=
  match e with Print MsgTriggered => true | _ => false end.

Definition is_slow_event (e : effect) : bool :=
  match e with Print (MsgSlow _) => true | _ => false end.

Definition is_urlopen (e : effect) : bool :=
  match e with Urlopen _ _ => true | _ => false end.

Definition is_reset_call (host : string) (port : Z) (e : effect) : bool :=
  match e with
  | Urlopen req _ =>
      String.eqb (url req) (reset_url host port)
      && String.eqb (get_method req) "POST"
  | _ => false
  end.

(** The edge test of line 146. *)
Definition edge (prev triggered : pyval) : bool :=
  is_False prev && is_True triggered.

Definition count (p : effect -> bool) (evs : list effect) : nat :=
  List.length (filter p evs).

(** The outcomes polled by the first turns of the loop, one per input. *)
Fixpoint outcomes (w : World) (host : string) (port : Z)
    (inputs : list CycleInput) (l : Loop) (s : State) : list pyval :=
  match inputs with
  | [] => []
  | inp :: rest =>
      fst (cycle_sample w host port inp l s)
      :: match cycle w host port inp l s with
         | (Return l', s') => outcomes w host port rest l' s'
         | (Raise _, _) => []
         end
  end.

(* ================================================================== *)
(** ** Measures of whole runs *)

Definition is_status_call (host : string) (port : Z) (e : effect) : bool :=
  match e with
  | Urlopen req _ =>
      String.eqb (url req) (status_url host port)
      && String.eqb (get_method req) "GET"
  | _ => false
  end.

Definition is_poll_sleep (e : effect) : bool :=
  match e with
  | Sleep secs => (secs =? POLL_INTERVAL)%float
  | _ => false
  end.

Definition is_error_event (e : effect) : bool :=
  match e with Print (MsgError _) => true | _ => false end.

Definition is_print (e : effect) : bool :=
  match e with Print _ | PrintErr _ => true | _ => false end.

(** The request of an effect goes to the device at [host]:[port], to one
    of the two paths, with the default timeout. *)
Definition targets_device (host : string) (port : Z) (e : effect) : Prop :=
  match e with
  | Urlopen req timeout =>
      (req = status_request host port \/ req = reset_request host port)
      /\ timeout = default_timeout
  | _ => True
  end.

(** The false-to-true edges of a sequence of outcomes seen from the value
    [prev]: a [None] outcome is passed over, any other becomes the value
    the next one is compared with. *)
Fixpoint count_edges (prev : pyval) (outs : list pyval) : nat :=
  match outs with
  | [] => 0
  | v :: rest =>
      if is_None v then count_edges prev rest
      else (if edge prev v then 1 else 0) + count_edges v rest
  end.

(** What each of the first turns of the loop meets: whether a reset was
    pending and its POST succeeded, and the outcome then polled. *)
Fixpoint turns (w : World) (host : string) (port : Z)
    (inputs : list CycleInput) (l : Loop) (s : State)
  : list (bool * pyval) :=
  match inputs with
  | [] => []
  | inp :: rest =>
      let l0 := input_thread (typed inp) l in
      let cleared :=
        reset_requested l0
        && match fst (post_reset w host port default_timeout s) with
           | Return ok => ok
           | Raise _ => false
           end in
      let outcome :=
        match get_status w host port default_timeout
                (snd (reset_step w host port inp l0 s)) with
        | (Return (v, _), _) => v
        | (Raise _, _) => PyNone
        end in
      (cleared, outcome)
      :: match cycle w host port inp l s with
         | (Return l', s') => turns w host port rest l' s'
         | (Raise _, _) => []
         end
  end.

(** The false-to-true edges of such a sequence seen from the value [prev]:
    a successful reset makes the value [False] before the outcome is
    compared, a [None] outcome is passed over, any other becomes the value
    the next one is compared with. *)
Fixpoint count_edges_after_resets (prev : pyval) (ts : list (bool * pyval))
  : nat :=
  match ts with
  | [] => 0
  | (cleared, v) :: rest =>
      let prev := if cleared : bool then PyBool false else prev in
      if is_None v then count_edges_after_resets prev rest
      else (if edge prev v then 1 else 0) + count_edges_after_resets v rest
  end.

(** No line of the cycle's input is a reset command. *)
Definition no_reset_typed (inp : CycleInput) : bool :=
  negb (existsb is_reset_command (typed inp)).

(** A string of whitespace only. *)
Fixpoint all_space (s : string) : bool :=
  match s with
  | EmptyString => true
  | String c s' => PyStr.isspace c && all_space s'
  end.

(** A non-empty string that neither starts nor ends with whitespace. *)
Fixpoint ends_solid (s : string) : bool :=
  match s with
  | EmptyString => false
  | String c EmptyString => negb (PyStr.isspace c)
  | String _ s' => ends_solid s'
  end.

Definition solid (s : string) : bool :=
  match s with
  | EmptyString => false
  | String c _ => negb (PyStr.isspace c) && ends_solid s
  end.

(* ================================================================== *)
(** ** The reset flag, statement by statement

    Lines 132-134 of the loop and lines 119-123 of the input thread, taken
    apart at the points where the two threads can interleave: the loop
    tests the flag, clears it, posts the reset and goes on to the poll; the
    input thread reads a line at any moment in between. Only the flag and
    the number of POSTs are followed here. *)

Module Flag.

(** The statement the loop is about to execute. *)
Inductive Place : Type :=
| AtTest      (* if reset_requested.is_set(): *)
| AtClear     (* reset_requested.clear() *)
| AtPost      (* post_reset(host, port) *)
| AtPoll.     (* get_status(host, port), and the rest of the turn *)

Record Turn := mkTurn {
  vars : Loop;
  place : Place;
  posts : nat        (* calls of post_reset so far *)
}.

Inductive Move : Type :=
| Reads (line : string)    (* the input thread reads one line *)
| Advances.                (* the loop executes its next statement *)

Definition move (t : Turn) (m : Move) : Turn :=
  match m with
  | Reads line => mkTurn (input_thread [line] (vars t)) (place t) (posts t)
  | Advances =>
      match place t with
      | AtTest =>
          mkTurn (vars t)
                 (if reset_requested (vars t) then AtClear else AtPoll)
                 (posts t)
      | AtClear =>
          mkTurn (mkLoop (prev_triggered (vars t)) false
                         (reader_running (vars t)))
                 AtPost (posts t)
      | AtPost => mkTurn (vars t) AtPoll (S (posts t))
      | AtPoll => t
      end
  end.

(** The two threads taking their steps in the order of [schedule]. *)
Definition play (schedule : list Move) (t : Turn) : Turn :=
  fold_left move schedule t.

End Flag.

(* ================================================================== *)
(** ** Discovery, in the words of the specification

    The first advertised candidate whose name contains the target name,
    case-insensitively, and which carries a 4-byte address is accepted; the
    answer is that address in dotted-decimal form with the advertised port,
    or 80 when the port is zero or absent. Nothing here is defined through
    the listener's own functions. *)

Module Spec.

(** [needle] occurs in [hay]. *)
Definition substring_of (needle hay : string) : Prop :=
  exists before after, hay = (before ++ needle ++ after)%string.

Definition name_matches (ad : Advert) : Prop :=
  substring_of (PyStr.lower INSTANCE_NAME) (PyStr.lower (name ad)).

Definition is_ipv4 (addr : list byte) : bool :=
  (List.length addr =? 4)%nat.

(** Every address a record holds, wherever it holds it: the entries of
    [addresses] and the one of [address]. *)
Definition held (info : ServiceInfo) : list (list byte) :=
  match addresses info with Some l => l | None => [] end
  ++ match address info with Some (Some b) => [b] | _ => [] end.

(** The candidate's record was fetched and holds a 4-byte address
    somewhere. *)
Definition holds_ipv4 (ad : Advert) : bool :=
  match service_info ad with
  | Some info => existsb is_ipv4 (held info)
  | None => false
  end.

(** The address list of a record: its [addresses] when that is a non-empty
    list, otherwise its single [address] when that is present and not
    [None]. *)
Definition listed (info : ServiceInfo) : list (list byte) :=
  match addresses info with
  | Some (a :: l) => a :: l
  | _ => match address info with
         | Some (Some b) => [b]
         | _ => []
         end
  end.

(** The candidate's record was fetched and its address list has a 4-byte
    entry. *)
Definition carries_ipv4 (ad : Advert) : bool :=
  match service_info ad with
  | Some info => existsb is_ipv4 (listed info)
  | None => false
  end.

Definition dotted_decimal (addr : list byte) : string :=
  match addr with
  | [a; b; c; d] =>
      (PyStr.of_byte a ++ "." ++ PyStr.of_byte b ++ "."
       ++ PyStr.of_byte c ++ "." ++ PyStr.of_byte d)%string
  | _ => EmptyString
  end.

Definition advertised_port (info : ServiceInfo) : Z :=
  match port info with
  | None => 80%Z
  | Some 0%Z => 80%Z
  | Some p => p
  end.

(** The answer an accepted candidate gives: the first 4-byte entry of its
    address list, with the port. *)
Definition answer (ad : Advert) : option Address :=
  match service_info ad with
  | Some info =>
      match find is_ipv4 (listed info) with
      | Some addr => Some (dotted_decimal addr, advertised_port info)
      | None => None
      end
  | None => None
  end.

(** [a] is the answer of the first acceptable candidate of [ads]. *)
Inductive first_match : list Advert -> option Address -> Prop :=
| no_candidate : first_match [] None
| accept ad rest a :
    name_matches ad -> carries_ipv4 ad = true -> answer ad = Some a ->
    first_match (ad :: rest) (Some a)
| skip_name ad rest r :
    ~ name_matches ad -> first_match rest r -> first_match (ad :: rest) r
| skip_address ad rest r :
    carries_ipv4 ad = false -> first_match rest r ->
    first_match (ad :: rest) r.

End Spec.

(* ================================================================== *)
(** ** Sample worlds

    Small worlds on which the theorems below are exercised: a clock given
    by its list of readings, a network given by its list of replies, a codec
    that maps bytes to characters one to one, and a JSON reader cut down to
    the bodies a device sends. *)

Module Sample.

Definition dq : string := String (ascii_of_nat 34) EmptyString.

Definition body (value : string) : string :=
  "{" ++ dq ++ "triggered" ++ dq ++ ": " ++ value ++ "}".

Definition json (text : string) : result pyval :=
  if String.eqb text (body "true")
  then inr (PyDict [("triggered", PyBool true)])
  else if String.eqb text (body "false")
  then inr (PyDict [("triggered", PyBool false)])
  else if String.eqb text (body "1")
  then inr (PyDict [("triggered", PyInt 1)])
  else if String.eqb text (body "null")
  then inr (PyDict [("triggered", PyNone)])
  else if String.eqb text "{}" then inr (PyDict [])
  else if String.eqb text "[]" then inr (PyList [])
  else inl JSONDecodeError.

Definition codec (raw : list byte) : result string :=
  inr (string_of_list_byte raw).

(** A reply with the given status code and body text. *)
Definition reply (code : Z) (text : string) : result Response :=
  inr (mkResponse code (inr (list_byte_of_string text))).

Definition world (clock : list float) (net : list (result Response))
  : World :=
  mkWorld (fun k => nth k clock 0%float)
          (fun k _ _ => nth k net (inl URLError))
          codec json.

Definition host : string := "192.168.1.50".
Definition port : Z := 80.

(** A cycle in which nothing is typed. *)
Definition quiet : CycleInput := mkCycleInput [] [].

(** A line as [readline] returns it. *)
Definition line (text : string) : string :=
  text ++ String (ascii_of_nat 10) EmptyString.

(** A cycle before which the given lines are typed. *)
Definition typing (lines : list string) : CycleInput :=
  mkCycleInput (map line lines) [].

Definition clock : list float :=
  [0; 0.1; 1.2; 1.3; 2.5; 2.6; 3.7; 3.8; 4.9; 5.0]%float.

(** The device answers "not triggered", drops off the network, and
    answers "triggered". *)
Definition away_and_back : World :=
  world clock [reply 200 (body "false"); inl URLError;
               reply 200 (body "true")].

(** The device answers "triggered", accepts a reset, and drops off the
    network. *)
Definition reset_then_away : World :=
  world clock [reply 200 (body "true"); reply 200 ""; inl URLError].

(** Every request is refused. *)
Definition unplugged : World := world clock [].

(** The device accepts a reset and answers "triggered" again. *)
Definition still_triggered : World :=
  world clock [reply 200 ""; reply 200 (body "true")].

(** The device takes 3.5 seconds to answer "not triggered". *)
Definition slow : World :=
  world [10; 13.5]%float [reply 200 (body "false")].

(** A printer, then the device advertising an IPv6 and an IPv4 address and
    port 0, then a second device. *)
Definition printer : Advert :=
  mkAdvert "Office Printer._http._tcp.local."
    (Some (mkServiceInfo (Some [[xc0; xa8; x01; x07]]) None (Some 631%Z))).

Definition doormon : Advert :=
  mkAdvert "DOORMON-2._http._tcp.local."
    (Some (mkServiceInfo
             (Some [[xfe; x80; x00; x00; x00; x00; x00; x00;
                     x00; x00; x00; x00; x00; x00; x00; x01];
                    [xc0; xa8; x01; x32]])
             None (Some 0%Z))).

Definition other_doormon : Advert :=
  mkAdvert "Doormon._http._tcp.local."
    (Some (mkServiceInfo (Some [[x0a; x00; x00; x02]]) None (Some 8080%Z))).

(** Nothing at the first test of the loop, the three advertisements at the
    second. *)
Definition found_at_second_test : Adverts :=
  mkAdverts [[]; [printer; doormon; other_doormon]] [].

(** Only the printer is advertised; the clock passes the deadline at the
    third test. *)
Definition nobody_home : Adverts :=
  mkAdverts [[printer]; []; []; []] [].

Definition slow_clock : World :=
  world [100; 100.2; 107.5; 115.3; 115.4]%float [].

(** The device answers an object without the "triggered" member. *)
Definition no_field : World :=
  world clock [reply 200 "{}"].

(** The device is triggered for three polls in a row after a quiet one. *)
Definition door_left_open : World :=
  world clock [reply 200 (body "false"); reply 200 (body "true");
               inl TimeoutError; reply 200 (body "true");
               reply 200 (body "false"); reply 200 (body "true")].

(** The reset is refused with status 500, then the device answers. *)
Definition reset_refused : World :=
  world clock [inl (HTTPError 500); reply 200 (body "true");
               reply 200 (body "true")].

(** The device takes 4 seconds and then the request times out. *)
Definition timing_out : World :=
  world [10; 14.0]%float [inl TimeoutError].

(** The device announced late, and one that never shows up in time. *)
Definition late_arrival : Adverts :=
  mkAdverts [[]; []; []; []] [doormon].

(** The user interrupts during discovery. *)
Definition interrupted : Adverts :=
  mkAdverts [[printer]; []] [].

(** A candidate with an IPv6 address in [addresses] and an IPv4 one in the
    old [address] attribute. *)
Definition ipv6_first : Advert :=
  mkAdvert "Doormon._http._tcp.local."
    (Some (mkServiceInfo
             (Some [[xfe; x80; x00; x00; x00; x00; x00; x00;
                     x00; x00; x00; x00; x00; x00; x00; x01]])
             (Some (Some [xc0; xa8; x01; x32])) (Some 80%Z))).

(** A candidate of an old library: no [addresses], only [address]. *)
Definition old_style : Advert :=
  mkAdvert "Doormon._http._tcp.local."
    (Some (mkServiceInfo None (Some (Some [xc0; xa8; x01; x32]))
             (Some 8080%Z))).

(** The device sends the number 1 where a boolean is expected. *)
Definition one_for_true : World :=
  world clock [reply 200 (body "1"); reply 200 (body "true")].

End Sample.

(* ================================================================== *)
(** ** Proofs *)

Ltac unfold_py :=
  unfold bind, ret, raise, lift, try_except_Exception,
    try_except_KeyboardInterrupt, emit, print, print_stderr, time_sleep,
    time_monotonic, urllib_urlopen, py_get in *.

Lemma get_status_eq (w : World) host port timeout s :
  get_status w host port timeout s =
  (Return (sample_at w host port timeout s),
   mkState (clock_reads s + sample_reads w host port timeout s)
           (S (net_calls s))
           (trace s ++ [Urlopen (status_request host port) timeout])).
Proof.
  unfold get_status, sample_at, sample_reads, fetch_text, parse_triggered,
    status_request.
  unfold_py; cbn.
  destruct (urlopen w (net_calls s) _ timeout) as [e | resp]; cbn.
  { now rewrite Nat.add_comm. }
  destruct (read resp) as [e | raw]; cbn.
  { now rewrite Nat.add_comm. }
  destruct (decode w raw) as [e | text]; cbn.
  { now rewrite Nat.add_comm. }
  destruct (json_loads w text) as [e | obj]; cbn.
  { now rewrite Nat.add_comm. }
  destruct obj; cbn; now rewrite Nat.add_comm.
Qed.

Lemma post_reset_eq (w : World) host port timeout s :
  post_reset w host port timeout s =
  (Return (reset_ok_at w host port timeout s),
   mkState (clock_reads s) (S (net_calls s))
           (trace s ++ [Urlopen (reset_request host port) timeout])).
Proof.
  unfold post_reset, reset_ok_at, reset_request.
  unfold_py; cbn.
  destruct (urlopen w (net_calls s) _ timeout) as [e | resp]; reflexivity.
Qed.

Lemma reset_step_eq (w : World) host port inp l s :
  exists s',
    reset_step w host port inp l s = (Return (reset_loop w host port inp l s), s')
    /\ clock_reads s' = clock_reads s
    /\ net_calls s' = net_calls (reset_state l s)
    /\ trace s' = trace s ++ reset_events w host port l s.
Proof.
  unfold reset_step, reset_loop, reset_events, reset_state.
  destruct (reset_requested l).
  - unfold bind. rewrite post_reset_eq.
    destruct (reset_ok_at w host port default_timeout s);
      unfold_py; cbn; eexists; (split; [reflexivity |]); cbn;
      rewrite <- app_assoc; auto.
  - exists s. unfold ret. rewrite app_nil_r. auto.
Qed.

Lemma report_eq sample l s :
  report sample l s =
  (Return (report_loop sample l),
   mkState (clock_reads s) (net_calls s) (trace s ++ report_events sample l)).
Proof.
  destruct sample as [v e], s as [reads calls tr].
  unfold report, report_loop, report_events; cbn [fst snd].
  destruct (is_None v); [reflexivity |].
  destruct (SLOW_RESPONSE_THRESHOLD <? e)%float;
    destruct (is_False (prev_triggered l) && is_True v);
    unfold_py; cbn; rewrite <- ?app_assoc; cbn; rewrite ?app_nil_r;
    reflexivity.
Qed.

Lemma sample_at_ext (w : World) host port timeout s1 s2 :
  clock_reads s1 = clock_reads s2 ->
  net_calls s1 = net_calls s2 ->
  sample_at w host port timeout s1 = sample_at w host port timeout s2.
Proof.
  intros Hc Hn. unfold sample_at. now rewrite Hc, Hn.
Qed.

Lemma reset_state_reads l s : clock_reads (reset_state l s) = clock_reads s.
Proof. unfold reset_state. now destruct (reset_requested l). Qed.

Lemma cycle_eq (w : World) host port inp l s :
  exists s',
    cycle w host port inp l s = (Return (cycle_loop w host port inp l s), s')
    /\ trace s' = trace s ++ cycle_events w host port inp l s
    /\ net_calls s' = S (net_calls (reset_state (input_thread (typed inp) l) s)).
Proof.
  unfold cycle, cycle_loop, cycle_events, cycle_sample, before_poll.
  set (l0 := input_thread (typed inp) l).
  destruct (reset_step_eq w host port inp l0 s) as (s1 & Hr & Hc1 & Hn1 & Ht1).
  unfold bind at 1. rewrite Hr.
  unfold bind at 1. rewrite get_status_eq.
  unfold bind at 1. rewrite report_eq.
  unfold_py; cbn.
  rewrite (sample_at_ext w host port default_timeout s1 (reset_state l0 s))
    by (rewrite ?reset_state_reads; assumption).
  eexists; split; [reflexivity |]; cbn.
  rewrite Ht1, Hn1, <- !app_assoc. auto.
Qed.

Lemma run_cycles_total (w : World) host port inputs :
  forall l s, exists l' s',
    run_cycles w host port inputs l s = (Return l', s').
Proof.
  induction inputs as [| inp rest IH]; intros l s; cbn.
  - now exists l, s.
  - destruct (cycle_eq w host port inp l s) as (s1 & Hc & _).
    unfold bind. rewrite Hc. apply IH.
Qed.

Lemma run_cycles_app (w : World) host port pre post :
  forall l s,
    run_cycles w host port (pre ++ post) l s =
    bind (run_cycles w host port pre l) (run_cycles w host port post) s.
Proof.
  induction pre as [| inp pre IH]; intros l s; cbn.
  - reflexivity.
  - unfold bind in *.
    destruct (cycle w host port inp l s) as [[l1 | r] s1]; [| reflexivity].
    apply IH.
Qed.

(** The loop is its turns, then the interrupt. *)
Lemma poll_loop_run_cycles (w : World) host port inputs :
  forall l s,
    poll_loop w host port inputs l s =
    bind (run_cycles w host port inputs l) (fun _ => raise KeyboardInterrupt) s.
Proof.
  induction inputs as [| inp rest IH]; intros l s; cbn.
  - reflexivity.
  - unfold bind in *.
    destruct (cycle w host port inp l s) as [[l1 | r] s1]; [| reflexivity].
    apply IH.
Qed.

Lemma is_False_iff v : is_False v = true <-> v = PyBool false.
Proof.
  split; [| now intros ->].
  destruct v as [| [|] | | | | |]; cbn; congruence.
Qed.

Lemma is_True_iff v : is_True v = true <-> v = PyBool true.
Proof.
  split; [| now intros ->].
  destruct v as [| [|] | | | | |]; cbn; congruence.
Qed.

Lemma is_None_iff v : is_None v = true <-> v = PyNone.
Proof.
  split; [| now intros ->].
  destruct v; cbn; congruence.
Qed.

Lemma edge_iff prev v :
  edge prev v = true <-> prev = PyBool false /\ v = PyBool true.
Proof.
  unfold edge. now rewrite andb_true_iff, is_False_iff, is_True_iff.
Qed.

Lemma filter_triggered_reset (w : World) host port l s :
  filter is_triggered_event (reset_events w host port l s) = [].
Proof.
  unfold reset_events.
  destruct (reset_requested l); [| reflexivity].
  now destruct (reset_ok_at w host port default_timeout s).
Qed.

Lemma filter_triggered_report sample l :
  filter is_triggered_event (report_events sample l) =
  if is_None (fst sample) then []
  else if edge (prev_triggered l) (fst sample) then [Print MsgTriggered]
       else [].
Proof.
  unfold report_events, edge.
  destruct (is_None (fst sample)); [reflexivity |].
  rewrite filter_app.
  destruct (SLOW_RESPONSE_THRESHOLD <? snd sample)%float;
    destruct (is_False (prev_triggered l) && is_True (fst sample));
    reflexivity.
Qed.

Lemma edge_not_None prev v : edge prev v = true -> is_None v = false.
Proof. intros [_ ->]%edge_iff. reflexivity. Qed.

Lemma filter_triggered_cycle (w : World) host port inp l s :
  filter is_triggered_event (cycle_events w host port inp l s) =
  if edge (prev_triggered (before_poll w host port inp l s))
          (fst (cycle_sample w host port inp l s))
  then [Print MsgTriggered] else [].
Proof.
  unfold cycle_events.
  rewrite !filter_app, filter_triggered_reset, filter_triggered_report.
  cbn [filter is_triggered_event app]. rewrite app_nil_r.
  destruct (edge _ _) eqn:He.
  - now rewrite (edge_not_None _ _ He).
  - now destruct (is_None _).
Qed.

Lemma In_triggered_filter evs :
  In (Print MsgTriggered) evs <->
  In (Print MsgTriggered) (filter is_triggered_event evs).
Proof.
  rewrite filter_In. cbn. tauto.
Qed.

(** The input thread never writes the previous-triggered variable. *)
Lemma input_thread_prev lines :
  forall l, prev_triggered (input_thread lines l) = prev_triggered l.
Proof.
  induction lines as [| line rest IH]; intros l; cbn; [reflexivity |].
  destruct (reader_running l); cbn; [| reflexivity].
  destruct (String.eqb line ""); cbn; [reflexivity |].
  destruct (is_reset_command line); now rewrite IH.
Qed.

(** One cycle, step by step: the reset request, the poll, the whole turn. *)
Lemma cycle_steps (w : World) host port inp l s :
  exists s1 s2 s',
    reset_step w host port inp (input_thread (typed inp) l) s
      = (Return (before_poll w host port inp l s), s1)
    /\ get_status w host port default_timeout s1
      = (Return (cycle_sample w host port inp l s), s2)
    /\ cycle w host port inp l s = (Return (cycle_loop w host port inp l s), s')
    /\ trace s' = trace s ++ cycle_events w host port inp l s.
Proof.
  destruct (reset_step_eq w host port inp (input_thread (typed inp) l) s)
    as (s1 & Hr & Hc1 & Hn1 & Ht1).
  destruct (cycle_eq w host port inp l s) as (s' & Hc & Ht & _).
  exists s1; eexists; exists s'.
  split; [exact Hr |]. split; [| now split].
  rewrite get_status_eq. unfold cycle_sample.
  rewrite (sample_at_ext w host port default_timeout s1
             (reset_state (input_thread (typed inp) l) s))
    by (rewrite ?reset_state_reads; assumption).
  reflexivity.
Qed.

(** [main], once the device is found: the banner, the turns of the loop
    from the initial variables, and the farewell at the interrupt. *)
Lemma main_polls (w : World) ads inputs s host port s1 :
  discover_device w ads
    (mkState (clock_reads s) (net_calls s) (trace s ++ [Print MsgDiscovering]))
  = (Return (Some (host, port)), s1) ->
  exists l s2,
    run_cycles w host port inputs initial_loop
      (mkState (clock_reads s1) (net_calls s1)
         (trace s1 ++ [Print (MsgFound host port); Print MsgPollingHelp;
                       Print MsgBlank]))
    = (Return l, s2)
    /\ main w ads inputs s
       = (Return tt,
          mkState (clock_reads s2) (net_calls s2) (trace s2 ++ [Print MsgBye])).
Proof.
  intros Hd.
  destruct (run_cycles_total w host port inputs initial_loop
              (mkState (clock_reads s1) (net_calls s1)
                 (trace s1 ++ [Print (MsgFound host port);
                               Print MsgPollingHelp; Print MsgBlank])))
    as (l & s2 & Hrun).
  exists l, s2. split; [exact Hrun |].
  unfold main. unfold bind at 1. unfold print at 1. unfold emit at 1.
  unfold bind at 1. rewrite Hd.
  unfold try_except_KeyboardInterrupt, bind, print, emit.
  cbn [clock_reads net_calls trace]. rewrite <- !app_assoc. cbn [app].
  rewrite poll_loop_run_cycles. unfold bind. rewrite Hrun.
  reflexivity.
Qed.

Lemma turns_cons (w : World) host port inp rest l s :
  exists s1,
    cycle w host port inp l s = (Return (cycle_loop w host port inp l s), s1)
    /\ trace s1 = trace s ++ cycle_events w host port inp l s
    /\ turns w host port (inp :: rest) l s
       = (reset_requested (input_thread (typed inp) l)
          && reset_ok_at w host port default_timeout s,
          fst (cycle_sample w host port inp l s))
         :: turns w host port rest (cycle_loop w host port inp l s) s1.
Proof.
  destruct (cycle_steps w host port inp l s)
    as (s1 & s2 & s' & Hr & Hg & Hc & Ht).
  exists s'. split; [exact Hc |]. split; [exact Ht |].
  cbn [turns]. rewrite post_reset_eq, Hr. cbn [fst snd]. rewrite Hg, Hc.
  now destruct (cycle_sample w host port inp l s).
Qed.

Lemma before_poll_prev_cleared (w : World) host port inp l s :
  prev_triggered (before_poll w host port inp l s)
  = if reset_requested (input_thread (typed inp) l)
       && reset_ok_at w host port default_timeout s
    then PyBool false else prev_triggered l.
Proof.
  unfold before_poll, reset_loop.
  destruct (reset_requested (input_thread (typed inp) l)); cbn.
  - destruct (reset_ok_at _ _ _ _ _); [reflexivity |].
    now rewrite !input_thread_prev.
  - apply input_thread_prev.
Qed.

Lemma cycle_loop_prev (w : World) host port inp l s :
  prev_triggered (cycle_loop w host port inp l s)
  = if is_None (fst (cycle_sample w host port inp l s))
    then prev_triggered (before_poll w host port inp l s)
    else fst (cycle_sample w host port inp l s).
Proof.
  unfold cycle_loop, report_loop. now destruct (is_None _).
Qed.

(** The "Triggered!" lines of a run are the edges of what its turns meet. *)
Lemma run_triggered_count (w : World) host port inputs :
  forall l s,
    exists l' s' evs,
      run_cycles w host port inputs l s = (Return l', s')
      /\ trace s' = trace s ++ evs
      /\ count is_triggered_event evs
         = count_edges_after_resets (prev_triggered l)
             (turns w host port inputs l s).
Proof.
  induction inputs as [| inp rest IH]; intros l s.
  - exists l, s, []. cbn. rewrite app_nil_r. auto.
  - destruct (turns_cons w host port inp rest l s) as (s1 & Hc & Ht & Hturns).
    destruct (IH (cycle_loop w host port inp l s) s1)
      as (l' & s' & evs & Hr & Ht' & Hn).
    exists l', s', (cycle_events w host port inp l s ++ evs).
    split; [cbn [run_cycles]; unfold bind; now rewrite Hc |].
    split; [rewrite Ht', Ht; now rewrite app_assoc |].
    rewrite Hturns. cbn [count_edges_after_resets].
    unfold count in *. rewrite filter_app, length_app, Hn.
    rewrite filter_triggered_cycle, cycle_loop_prev, before_poll_prev_cleared.
    set (prev := if _ && _ then PyBool false else prev_triggered l).
    destruct (is_None (fst (cycle_sample w host port inp l s))) eqn:Hnone.
    + apply is_None_iff in Hnone. rewrite Hnone.
      destruct (edge prev PyNone) eqn:He; [| reflexivity].
      apply edge_iff in He. destruct He as [_ He]. discriminate.
    + now destruct (edge prev _).
Qed.

(** C1: in every cycle of every run of the polling loop, "Triggered!" is
    printed if and only if the previous-triggered variable, as the poll of
    that cycle finds it, is [False] and the polled outcome is [True]. It is
    printed at most once per cycle; never when the variable holds [True]
    (sustained), never when the variable or the outcome is [None]
    (unreachable, or no sample yet), and never in the first cycle of a run
    in which no reset was requested. A reachable outcome becomes the
    variable the next cycle starts from, an unreachable one leaves it; so
    over the whole run, from the first sample on, the number of
    "Triggered!" lines is the number of false-to-true edges of the
    outcomes polled, unreachable ones passed over and the value made
    [False] by each successful reset. *)
Theorem triggered_event_iff_false_to_true_edge
    (w : World) host port (pre : list CycleInput) (inp : CycleInput)
    (s0 : State) :
  exists l s lb s1 v elapsed s2 l' s' evs,
    run_cycles w host port pre initial_loop s0 = (Return l, s)
    /\ reset_step w host port inp (input_thread (typed inp) l) s
       = (Return lb, s1)
    /\ get_status w host port default_timeout s1 = (Return (v, elapsed), s2)
    /\ cycle w host port inp l s = (Return l', s')
    /\ trace s' = trace s ++ evs
    /\ (In (Print MsgTriggered) evs <->
        prev_triggered lb = PyBool false /\ v = PyBool true)
    /\ count is_triggered_event evs <= 1
    /\ (prev_triggered lb = PyBool true -> ~ In (Print MsgTriggered) evs)
    /\ (prev_triggered lb = PyNone -> ~ In (Print MsgTriggered) evs)
    /\ (v = PyNone -> ~ In (Print MsgTriggered) evs)
    /\ (pre = [] -> reset_requested (input_thread (typed inp) l) = false ->
        ~ In (Print MsgTriggered) evs)
    /\ prev_triggered l' = (if is_None v then prev_triggered lb else v)
    /\ (exists before,
           trace s = trace s0 ++ before
           /\ run_cycles w host port (pre ++ [inp]) initial_loop s0
              = (Return l', s')
           /\ count is_triggered_event (before ++ evs)
              = count_edges_after_resets PyNone
                  (turns w host port (pre ++ [inp]) initial_loop s0)).
Proof.
  destruct (run_triggered_count w host port pre initial_loop s0)
    as (l & s & before & Hrun & Htpre & _).
  destruct (cycle_steps w host port inp l s) as (s1 & s2 & s' & Hr & Hg & Hc & Ht).
  pose proof (cycle_loop_prev w host port inp l s) as Hnext.
  destruct (cycle_sample w host port inp l s) as [v elapsed] eqn:Hs.
  exists l, s, (before_poll w host port inp l s), s1, v, elapsed, s2,
    (cycle_loop w host port inp l s), s', (cycle_events w host port inp l s).
  assert (Hin : In (Print MsgTriggered) (cycle_events w host port inp l s) <->
                prev_triggered (before_poll w host port inp l s) = PyBool false
                /\ v = PyBool true).
  { rewrite In_triggered_filter, filter_triggered_cycle, Hs, <- edge_iff.
    cbn [fst]. destruct (edge _ _); cbn; intuition congruence. }
  repeat (split; [assumption |]).
  split.
  { unfold count. rewrite filter_triggered_cycle.
    destruct (edge _ _); cbn; lia. }
  split; [intros Hp [Hf _]%Hin; congruence |].
  split; [intros Hp [Hf _]%Hin; congruence |].
  split; [intros Hv [_ Hf]%Hin; congruence |].
  split.
  { intros -> Hno [Hf _]%Hin.
    cbn in Hrun. unfold ret in Hrun. injection Hrun as <- <-.
    unfold before_poll, reset_loop in Hf. rewrite Hno in Hf.
    rewrite input_thread_prev in Hf. cbn in Hf. congruence. }
  split; [exact Hnext |].
  exists before. split; [exact Htpre |].
  assert (Happ : run_cycles w host port (pre ++ [inp]) initial_loop s0
                 = (Return (cycle_loop w host port inp l s), s')).
  { rewrite run_cycles_app. unfold bind at 1. rewrite Hrun.
    cbn [run_cycles]. unfold bind, ret. now rewrite Hc. }
  split; [exact Happ |].
  destruct (run_triggered_count w host port (pre ++ [inp]) initial_loop s0)
    as (l2 & s3 & evs_all & Hrun2 & Ht2 & Hn2).
  rewrite Happ in Hrun2. injection Hrun2 as <- <-.
  rewrite Ht, Htpre, <- app_assoc in Ht2. apply app_inv_head in Ht2.
  rewrite Ht2. exact Hn2.
Qed.

(** After the reset request, the previous-triggered variable is [False] or
    what it was. *)
Lemma before_poll_prev (w : World) host port inp l s :
  prev_triggered (before_poll w host port inp l s) = PyBool false
  \/ prev_triggered (before_poll w host port inp l s) = prev_triggered l.
Proof.
  unfold before_poll, reset_loop.
  destruct (reset_requested _); cbn.
  - destruct (reset_ok_at _ _ _ _ _); [now left | right].
    now rewrite !input_thread_prev.
  - right. apply input_thread_prev.
Qed.

(** C2 (amended): in a cycle whose poll is unreachable (outcome [None])
    the previous-triggered variable ends as the poll found it: the sample is
    reported as an error and nothing is stored. The cycle therefore leaves
    the variable as it was at its start when no reset was pending or the
    reset failed, and leaves it [False] when the reset of that cycle
    succeeded. Hence, when three consecutive cycles poll [False], [None],
    [True], "Triggered!" is printed in the third. *)
Theorem unreachable_sample_keeps_monitor_state (w : World) host port :
  (forall inp l s,
      fst (cycle_sample w host port inp l s) = PyNone ->
      exists lb s1 elapsed s2 l' s' ok sr,
        reset_step w host port inp (input_thread (typed inp) l) s
          = (Return lb, s1)
        /\ get_status w host port default_timeout s1
           = (Return (PyNone, elapsed), s2)
        /\ fst (report (PyNone, elapsed) lb s2) = Return lb
        /\ cycle w host port inp l s = (Return l', s')
        /\ prev_triggered l' = prev_triggered lb
        /\ post_reset w host port default_timeout s = (Return ok, sr)
        /\ (reset_requested (input_thread (typed inp) l) = false
            \/ ok = false ->
            prev_triggered l' = prev_triggered l)
        /\ (reset_requested (input_thread (typed inp) l) = true ->
            ok = true ->
            prev_triggered l' = PyBool false))
  /\ (forall i1 i2 i3 l0 s0,
         outcomes w host port [i1; i2; i3] l0 s0
         = [PyBool false; PyNone; PyBool true] ->
         exists l2 s2 l3 s3 evs,
           run_cycles w host port [i1; i2] l0 s0 = (Return l2, s2)
           /\ prev_triggered l2 = PyBool false
           /\ cycle w host port i3 l2 s2 = (Return l3, s3)
           /\ trace s3 = trace s2 ++ evs
           /\ In (Print MsgTriggered) evs).
Proof.
  split.
  - intros inp l s Hnone.
    destruct (cycle_steps w host port inp l s)
      as (s1 & s2 & s' & Hr & Hg & Hc & Ht).
    destruct (cycle_sample w host port inp l s) as [v elapsed] eqn:Hs.
    cbn in Hnone; subst v.
    exists (before_poll w host port inp l s), s1, elapsed, s2,
      (cycle_loop w host port inp l s), s',
      (reset_ok_at w host port default_timeout s).
    eexists.
    repeat (split; [assumption || reflexivity |]).
    unfold cycle_loop. rewrite Hs. unfold report_loop; cbn.
    split; [reflexivity |].
    split; [apply post_reset_eq |].
    unfold before_poll, reset_loop.
    split.
    + intros [Hno | Hfail].
      * rewrite Hno. apply input_thread_prev.
      * destruct (reset_requested _); [| apply input_thread_prev].
        rewrite Hfail. cbn. now rewrite !input_thread_prev.
    + intros Hset Hok. now rewrite Hset, Hok.
  - intros i1 i2 i3 l0 s0 Hseq. cbn in Hseq.
    destruct (cycle_steps w host port i1 l0 s0)
      as (? & ? & s1 & _ & _ & Hc1 & _).
    rewrite Hc1 in Hseq.
    destruct (cycle_steps w host port i2 (cycle_loop w host port i1 l0 s0) s1)
      as (? & ? & s2 & _ & _ & Hc2 & _).
    rewrite Hc2 in Hseq.
    set (l1 := cycle_loop w host port i1 l0 s0) in *.
    set (l2 := cycle_loop w host port i2 l1 s1) in *.
    destruct (cycle_steps w host port i3 l2 s2)
      as (? & ? & s3 & _ & _ & Hc3 & Ht3).
    rewrite Hc3 in Hseq.
    injection Hseq as H1 H2 H3.
    assert (Hl1 : prev_triggered l1 = PyBool false).
    { unfold l1, cycle_loop, report_loop. now rewrite H1. }
    assert (Hl2 : prev_triggered l2 = PyBool false).
    { unfold l2, cycle_loop, report_loop. rewrite H2; cbn.
      destruct (before_poll_prev w host port i2 l1 s1); congruence. }
    exists l2, s2, (cycle_loop w host port i3 l2 s2), s3,
      (cycle_events w host port i3 l2 s2).
    split.
    { cbn. unfold bind. rewrite Hc1. fold l1. rewrite Hc2. reflexivity. }
    repeat (split; [assumption |]).
    rewrite In_triggered_filter, filter_triggered_cycle, H3.
    assert (He : edge (prev_triggered (before_poll w host port i3 l2 s2))
                      (PyBool true) = true).
    { apply edge_iff. split; [| reflexivity].
      destruct (before_poll_prev w host port i3 l2 s2); congruence. }
    rewrite He. now left.
Qed.

Lemma unreachable_sample_keeps_monitor_state_witness :
  (outcomes Sample.away_and_back Sample.host Sample.port
     [Sample.quiet; Sample.quiet; Sample.quiet] initial_loop initial_state
   = [PyBool false; PyNone; PyBool true]
   /\ exists l2 s2 l3 s3 evs,
        run_cycles Sample.away_and_back Sample.host Sample.port
          [Sample.quiet; Sample.quiet] initial_loop initial_state
        = (Return l2, s2)
        /\ prev_triggered l2 = PyBool false
        /\ cycle Sample.away_and_back Sample.host Sample.port Sample.quiet
             l2 s2 = (Return l3, s3)
        /\ trace s3 = trace s2 ++ evs
        /\ In (Print MsgTriggered) evs)
  /\ (fst (cycle_sample Sample.unplugged Sample.host Sample.port
             (Sample.typing ["r"]) (mkLoop (PyBool true) false true)
             initial_state) = PyNone
      /\ exists l' s',
           cycle Sample.unplugged Sample.host Sample.port
             (Sample.typing ["r"]) (mkLoop (PyBool true) false true)
             initial_state = (Return l', s')
           /\ prev_triggered l' = PyBool true).
Proof.
  destruct (unreachable_sample_keeps_monitor_state
              Sample.away_and_back Sample.host Sample.port) as [_ Hseq].
  destruct (unreachable_sample_keeps_monitor_state
              Sample.unplugged Sample.host Sample.port) as [Hframe _].
  split.
  - split; [reflexivity |]. apply Hseq. reflexivity.
  - split; [reflexivity |].
    destruct (Hframe (Sample.typing ["r"]) (mkLoop (PyBool true) false true)
                initial_state eq_refl)
      as (lb & s1 & elapsed & s2 & l' & s' & ok & sr
          & _ & _ & _ & Hc & _ & Hp & Hkeep & _).
    exists l', s'. split; [exact Hc |].
    apply Hkeep. right. cbv in Hp. congruence.
Defined.

(** C2, as stated, fails: the user asks for a reset while the device is
    triggered; in the next cycle the reset succeeds and the poll is
    unreachable, and the cycle changes the previous-triggered variable from
    [True] to [False]. *)
Lemma unreachable_cycle_after_reset_changes_monitor_state :
  exists l s l' s',
    run_cycles Sample.reset_then_away Sample.host Sample.port
      [Sample.quiet] initial_loop initial_state = (Return l, s)
    /\ cycle Sample.reset_then_away Sample.host Sample.port
         (Sample.typing ["r"]) l s = (Return l', s')
    /\ fst (cycle_sample Sample.reset_then_away Sample.host Sample.port
              (Sample.typing ["r"]) l s) = PyNone
    /\ prev_triggered l = PyBool true
    /\ prev_triggered l' = PyBool false.
Proof.
  do 4 eexists. repeat split; reflexivity.
Qed.

(** C3: [get_status] never raises. Whatever goes wrong (urlopen raising
    for a refused connection, a timeout or an HTTP error status, the body
    failing to arrive or to decode, a body that is not JSON, a JSON value
    that is not an object) it returns [None] with the time elapsed between
    its first reading of the clock and the reading taken in the handler;
    a malformed response and a network failure give the same outcome. *)
Theorem get_status_never_raises (w : World) host port timeout s :
  let req := status_request host port in
  let t0 := monotonic w (clock_reads s) in
  let t1 := monotonic w (S (clock_reads s)) in
  let t2 := monotonic w (S (S (clock_reads s))) in
  let failed_at (t : float) :=
    fst (get_status w host port timeout s) = Return (PyNone, (t - t0)%float) in
  (exists v elapsed s',
      get_status w host port timeout s = (Return (v, elapsed), s'))
  /\ (forall e, urlopen w (net_calls s) req timeout = inl e -> failed_at t1)
  /\ (forall resp e,
         urlopen w (net_calls s) req timeout = inr resp ->
         read resp = inl e -> failed_at t1)
  /\ (forall resp raw e,
         urlopen w (net_calls s) req timeout = inr resp ->
         read resp = inr raw ->
         decode w raw = inl e -> failed_at t1)
  /\ (forall resp raw text e,
         urlopen w (net_calls s) req timeout = inr resp ->
         read resp = inr raw ->
         decode w raw = inr text ->
         json_loads w text = inl e -> failed_at t2)
  /\ (forall resp raw text obj,
         urlopen w (net_calls s) req timeout = inr resp ->
         read resp = inr raw ->
         decode w raw = inr text ->
         json_loads w text = inr obj ->
         (forall d, obj <> PyDict d) -> failed_at t2).
Proof.
  cbv zeta. rewrite get_status_eq. cbn [fst].
  split; [destruct (sample_at w host port timeout s); eauto |].
  unfold sample_at, fetch_text, parse_triggered.
  repeat split.
  - intros e ->. reflexivity.
  - intros resp e -> ->. reflexivity.
  - intros resp raw e -> -> ->. reflexivity.
  - intros resp raw text e -> -> -> ->. reflexivity.
  - intros resp raw text obj -> -> -> -> Hobj.
    destruct obj; try reflexivity. now destruct (Hobj d).
Qed.

(** C5: [post_reset] makes one POST with an empty body to /reset and
    returns [True] if and only if urlopen returns a response whose status
    code is 200; when urlopen raises, or the code is another one, it
    returns [False]. It makes exactly one call of urlopen: no retry. *)
Theorem post_reset_true_iff_status_200 (w : World) host port timeout s :
  let req := reset_request host port in
  exists b s',
    post_reset w host port timeout s = (Return b, s')
    /\ (b = true <->
        exists resp,
          urlopen w (net_calls s) req timeout = inr resp
          /\ getcode resp = 200%Z)
    /\ (forall e, urlopen w (net_calls s) req timeout = inl e -> b = false)
    /\ (forall resp,
           urlopen w (net_calls s) req timeout = inr resp ->
           getcode resp <> 200%Z -> b = false)
    /\ url req = ("http://" ++ host ++ ":" ++ PyStr.of_int port ++ "/reset")%string
    /\ get_method req = "POST"
    /\ data req = Some []
    /\ net_calls s' = S (net_calls s)
    /\ trace s' = trace s ++ [Urlopen req timeout].
Proof.
  cbv zeta. rewrite post_reset_eq. do 2 eexists.
  split; [reflexivity |]. cbn [net_calls trace].
  unfold reset_ok_at.
  destruct (urlopen w (net_calls s) (reset_request host port) timeout)
    as [e | resp].
  - repeat split; try congruence.
    intros (resp & Hresp & _). discriminate.
  - repeat split; try congruence.
    + intros H%Z.eqb_eq. now exists resp.
    + intros (resp' & [= <-] & H). now apply Z.eqb_eq.
    + intros resp' [= <-] H. now apply Z.eqb_neq.
Qed.

(** The input thread sets the flag and never clears it. *)
Lemma input_thread_keeps_flag lines :
  forall l,
    reset_requested l = true ->
    reset_requested (input_thread lines l) = true.
Proof.
  induction lines as [| line rest IH]; intros l Hl; cbn; [assumption |].
  destruct (reader_running l); cbn; [| assumption].
  destruct (String.eqb line ""); cbn; [assumption |].
  destruct (is_reset_command line); apply IH; [reflexivity | assumption].
Qed.

Lemma filter_reset_call_report host port sample l :
  filter (is_reset_call host port) (report_events sample l) = [].
Proof.
  unfold report_events.
  destruct (is_None (fst sample)); [reflexivity |].
  destruct (SLOW_RESPONSE_THRESHOLD <? snd sample)%float;
    destruct (is_False (prev_triggered l) && is_True (fst sample));
    reflexivity.
Qed.

(** A cycle makes one reset call when the flag is set as the loop tests it,
    and none otherwise. *)
Lemma count_reset_calls_cycle (w : World) host port inp l s :
  count (is_reset_call host port) (cycle_events w host port inp l s) =
  if reset_requested (input_thread (typed inp) l) then 1 else 0.
Proof.
  unfold count, cycle_events.
  rewrite !filter_app, filter_reset_call_report.
  cbn [filter is_reset_call status_request url get_method method data].
  rewrite andb_false_r. cbn [app].
  unfold reset_events.
  destruct (reset_requested (input_thread (typed inp) l)); [| reflexivity].
  cbn [filter is_reset_call reset_request url get_method method].
  rewrite !String.eqb_refl. cbn. reflexivity.
Qed.

(** C4: when the reset flag is set at the start of a cycle, the loop clears
    it and calls [post_reset] once (one POST to /reset, then one line
    printed). When the call succeeds the previous-triggered variable is set
    to [False], so that a [True] sample polled in the same cycle prints
    "Triggered!" whatever the variable held before; when it fails the
    variable keeps its value. *)
Theorem reset_request_clears_flag_and_resets_baseline
    (w : World) host port inp l s
    (Hflag : reset_requested l = true) :
  exists lb s1 ok s1' msg l' s' evs,
    reset_step w host port inp (input_thread (typed inp) l) s
      = (Return lb, s1)
    /\ post_reset w host port default_timeout s = (Return ok, s1')
    /\ reset_requested lb = false
    /\ net_calls s1 = S (net_calls s)
    /\ trace s1 = trace s ++ [Urlopen (reset_request host port) default_timeout;
                             Print msg]
    /\ cycle w host port inp l s = (Return l', s')
    /\ trace s' = trace s ++ evs
    /\ count (is_reset_call host port) evs = 1
    /\ (ok = true ->
        msg = MsgResetCleared
        /\ prev_triggered lb = PyBool false
        /\ (fst (cycle_sample w host port inp l s) = PyBool true ->
            In (Print MsgTriggered) evs))
    /\ (ok = false ->
        msg = MsgResetFailed
        /\ prev_triggered lb = prev_triggered l).
Proof.
  pose proof (input_thread_keeps_flag (typed inp) l Hflag) as Hset.
  destruct (cycle_steps w host port inp l s)
    as (s1 & s2 & s' & Hr & Hg & Hc & Ht).
  destruct (reset_step_eq w host port inp (input_thread (typed inp) l) s)
    as (s1' & Hr' & _ & Hn & Htr).
  rewrite Hr in Hr'. injection Hr' as <-.
  exists (before_poll w host port inp l s), s1,
    (reset_ok_at w host port default_timeout s).
  eexists.
  exists (if reset_ok_at w host port default_timeout s
          then MsgResetCleared else MsgResetFailed),
    (cycle_loop w host port inp l s), s', (cycle_events w host port inp l s).
  split; [assumption |].
  split; [apply post_reset_eq |].
  unfold reset_state, reset_events in *. rewrite Hset in *.
  unfold before_poll, reset_loop. rewrite Hset. cbn [reset_requested].
  repeat (split; [assumption || reflexivity |]).
  split.
  { now rewrite count_reset_calls_cycle, Hset. }
  split; intros Hok; rewrite Hok; cbn [prev_triggered].
  - repeat split. intros Hv.
    rewrite In_triggered_filter, filter_triggered_cycle, Hv.
    unfold before_poll, reset_loop. rewrite Hset, Hok. now left.
  - split; [reflexivity |]. now rewrite !input_thread_prev.
Qed.

Lemma reset_request_clears_flag_and_resets_baseline_witness :
  reset_requested (mkLoop (PyBool true) true true) = true
  /\ exists lb s1 l' s' evs,
       reset_step Sample.still_triggered Sample.host Sample.port Sample.quiet
         (mkLoop (PyBool true) true true) initial_state = (Return lb, s1)
       /\ prev_triggered lb = PyBool false
       /\ reset_requested lb = false
       /\ cycle Sample.still_triggered Sample.host Sample.port Sample.quiet
            (mkLoop (PyBool true) true true) initial_state = (Return l', s')
       /\ trace s' = evs
       /\ count (is_reset_call Sample.host Sample.port) evs = 1
       /\ In (Print MsgTriggered) evs.
Proof.
  split; [reflexivity |].
  destruct (reset_request_clears_flag_and_resets_baseline
              Sample.still_triggered Sample.host Sample.port Sample.quiet
              (mkLoop (PyBool true) true true) initial_state eq_refl)
    as (lb & s1 & ok & s1' & msg & l' & s' & evs
        & Hr & Hp & Hf & _ & _ & Hc & Ht & Hn & Hok & _).
  assert (ok = true) as Hyes by (cbv in Hp; congruence).
  destruct (Hok Hyes) as (_ & Hprev & Hin).
  exists lb, s1, l', s', evs.
  repeat (split; [assumption |]).
  apply Hin. reflexivity.
Defined.

Lemma filter_slow_reset (w : World) host port l s :
  filter is_slow_event (reset_events w host port l s) = [].
Proof.
  unfold reset_events.
  destruct (reset_requested l); [| reflexivity].
  now destruct (reset_ok_at w host port default_timeout s).
Qed.

Lemma filter_slow_report sample l :
  filter is_slow_event (report_events sample l) =
  if is_None (fst sample) then []
  else if (SLOW_RESPONSE_THRESHOLD <? snd sample)%float
       then [Print (MsgSlow (snd sample))] else [].
Proof.
  unfold report_events.
  destruct (is_None (fst sample)); [reflexivity |].
  destruct (SLOW_RESPONSE_THRESHOLD <? snd sample)%float;
    destruct (is_False (prev_triggered l) && is_True (fst sample));
    reflexivity.
Qed.

Lemma filter_slow_cycle (w : World) host port inp l s :
  filter is_slow_event (cycle_events w host port inp l s) =
  filter is_slow_event
    (report_events (cycle_sample w host port inp l s)
                   (before_poll w host port inp l s)).
Proof.
  unfold cycle_events.
  rewrite !filter_app, filter_slow_reset. cbn [filter is_slow_event app].
  now rewrite app_nil_r.
Qed.

(** C6: in a cycle whose poll is reachable (outcome not [None]) the
    slow-response line is printed, once, exactly when the elapsed time is
    above 3.0 seconds: it is printed for 3.5 and not for 2.9. The test does
    not look at the previous-triggered variable, so it is the same on the
    first sample, and the slow and the triggered lines are printed or not
    independently of each other. *)
Theorem slow_event_iff_elapsed_exceeds_threshold
    (w : World) host port inp l s
    (Hreach : fst (cycle_sample w host port inp l s) <> PyNone) :
  exists lb s1 v elapsed s2 l' s' evs,
    reset_step w host port inp (input_thread (typed inp) l) s
      = (Return lb, s1)
    /\ get_status w host port default_timeout s1 = (Return (v, elapsed), s2)
    /\ cycle w host port inp l s = (Return l', s')
    /\ trace s' = trace s ++ evs
    /\ ((exists e, In (Print (MsgSlow e)) evs) <->
        (3.0 <? elapsed)%float = true)
    /\ filter is_slow_event evs =
       (if (3.0 <? elapsed)%float then [Print (MsgSlow elapsed)] else [])
    /\ filter is_triggered_event evs =
       (if edge (prev_triggered lb) v then [Print MsgTriggered] else [])
    /\ (forall l0 s0,
           trace (snd (report (PyBool false, 3.5%float) l0 s0))
           = trace s0 ++ [Print (MsgSlow 3.5%float)])
    /\ (forall l0 s0,
           trace (snd (report (PyBool false, 2.9%float) l0 s0)) = trace s0).
Proof.
  destruct (cycle_steps w host port inp l s)
    as (s1 & s2 & s' & Hr & Hg & Hc & Ht).
  pose proof (filter_slow_cycle w host port inp l s) as Hslow.
  pose proof (filter_triggered_cycle w host port inp l s) as Htrig.
  rewrite filter_slow_report in Hslow.
  destruct (cycle_sample w host port inp l s) as [v elapsed] eqn:Hs.
  cbn [fst snd] in *.
  destruct (is_None v) eqn:Hv; [apply is_None_iff in Hv; contradiction |].
  exists (before_poll w host port inp l s), s1, v, elapsed, s2,
    (cycle_loop w host port inp l s), s', (cycle_events w host port inp l s).
  repeat (split; [assumption |]).
  unfold SLOW_RESPONSE_THRESHOLD in Hslow.
  split; [| repeat split; try assumption;
             intros l0 s0; rewrite report_eq; unfold report_events;
             cbn; rewrite andb_false_r; cbn; now rewrite ?app_nil_r].
  split.
  - intros [e He].
    assert (Hin : In (Print (MsgSlow e))
                     (filter is_slow_event (cycle_events w host port inp l s)))
      by (apply filter_In; split; [assumption | reflexivity]).
    rewrite Hslow in Hin. now destruct (3.0 <? elapsed)%float.
  - intros Hlt. exists elapsed.
    assert (Hin : In (Print (MsgSlow elapsed))
                     (filter is_slow_event (cycle_events w host port inp l s)))
      by (rewrite Hslow, Hlt; now left).
    now apply filter_In in Hin.
Qed.

Lemma slow_event_iff_elapsed_exceeds_threshold_witness :
  fst (cycle_sample Sample.slow Sample.host Sample.port Sample.quiet
         initial_loop initial_state) <> PyNone
  /\ exists l' s',
       cycle Sample.slow Sample.host Sample.port Sample.quiet
         initial_loop initial_state = (Return l', s')
       /\ filter is_slow_event (trace s') = [Print (MsgSlow 3.5%float)].
Proof.
  assert (Hreach : fst (cycle_sample Sample.slow Sample.host Sample.port
                          Sample.quiet initial_loop initial_state) <> PyNone)
    by (cbv; discriminate).
  split; [exact Hreach |].
  destruct (slow_event_iff_elapsed_exceeds_threshold
              Sample.slow Sample.host Sample.port Sample.quiet
              initial_loop initial_state Hreach)
    as (lb & s1 & v & elapsed & s2 & l' & s' & evs
        & Hr & Hg & Hc & Ht & _ & Hslow & _).
  exists l', s'. split; [assumption |].
  rewrite Ht. cbn [trace initial_state app]. rewrite Hslow.
  cbv in Hr. injection Hr as <- <-.
  cbv in Hg. injection Hg as <- <- <-.
  reflexivity.
Defined.

Lemma input_thread_sets_flag lines l :
  reader_running l = true ->
  lines <> [] ->
  Forall (fun line => is_reset_command line = true) lines ->
  reset_requested (input_thread lines l) = true.
Proof.
  intros Hrun Hne Hcmds.
  destruct lines as [| line rest]; [contradiction |].
  apply Forall_inv in Hcmds. cbn. rewrite Hrun. cbn.
  destruct (String.eqb line "") eqn:Hempty.
  - apply String.eqb_eq in Hempty. subst line. discriminate.
  - rewrite Hcmds. now apply input_thread_keeps_flag.
Qed.

(** A reset command read while the thread is in its loop sets the flag,
    whatever other lines come before it (none of them the empty line of end
    of input) and after it. *)
Lemma input_thread_sets_flag_among before cmd after :
  forall l,
    reader_running l = true ->
    Forall (fun line => line <> "") before ->
    is_reset_command cmd = true ->
    reset_requested (input_thread (before ++ cmd :: after) l) = true.
Proof.
  induction before as [| line before IH]; intros l Hrun Hopen Hcmd.
  - cbn. rewrite Hrun. cbn.
    destruct (String.eqb cmd "") eqn:Hempty.
    + apply String.eqb_eq in Hempty. subst cmd. discriminate.
    + rewrite Hcmd. now apply input_thread_keeps_flag.
  - cbn [app input_thread]. rewrite Hrun. cbn [negb].
    destruct (String.eqb line "") eqn:Hempty.
    + apply String.eqb_eq in Hempty. now destruct (Forall_inv Hopen).
    + destruct (is_reset_command line);
        apply IH; try assumption; try reflexivity;
        exact (Forall_inv_tail Hopen).
Qed.

Lemma input_thread_done lines l :
  reader_running l = false -> input_thread lines l = l.
Proof.
  intros H. destruct lines as [| line rest]; [reflexivity |].
  cbn. now rewrite H.
Qed.

Lemma input_thread_one_then_rest line rest l :
  input_thread (line :: rest) l = input_thread rest (input_thread [line] l).
Proof.
  cbn. destruct (reader_running l) eqn:Hrun; cbn.
  - destruct (String.eqb line ""); cbn.
    + now rewrite input_thread_done.
    + now destruct (is_reset_command line).
  - now rewrite input_thread_done.
Qed.

Lemma play_app a b t :
  Flag.play (a ++ b) t = Flag.play b (Flag.play a t).
Proof. unfold Flag.play. apply fold_left_app. Qed.

(** The input thread reading several lines in a row, the loop standing
    still. *)
Lemma play_reads lines :
  forall t,
    Flag.play (map Flag.Reads lines) t
    = Flag.mkTurn (input_thread lines (Flag.vars t))
                  (Flag.place t) (Flag.posts t).
Proof.
  induction lines as [| line rest IH]; intros t.
  - now destruct t.
  - change (Flag.play (map Flag.Reads (line :: rest)) t)
      with (Flag.play (map Flag.Reads rest) (Flag.move t (Flag.Reads line))).
    rewrite IH. cbn [Flag.move Flag.vars Flag.place Flag.posts].
    now rewrite <- input_thread_one_then_rest.
Qed.

(** Past the clear nothing clears the flag again in this turn. *)
Lemma flag_kept_past_clear schedule :
  forall t,
    Flag.place t = Flag.AtPost \/ Flag.place t = Flag.AtPoll ->
    reset_requested (Flag.vars t) = true ->
    reset_requested (Flag.vars (Flag.play schedule t)) = true.
Proof.
  induction schedule as [| m rest IH]; intros t Hplace Hflag;
    [exact Hflag |].
  change (Flag.play (m :: rest) t) with (Flag.play rest (Flag.move t m)).
  destruct t as [v pl n]. cbn in Hplace, Hflag.
  apply IH.
  - destruct m as [line |]; [exact Hplace |].
    destruct Hplace as [-> | ->]; cbn; auto.
  - destruct m as [line |].
    + cbn [Flag.move Flag.vars]. now apply input_thread_keeps_flag.
    + destruct Hplace as [-> | ->]; exact Hflag.
Qed.

Lemma posts_bound schedule :
  forall t,
    Flag.posts (Flag.play schedule t)
    <= Flag.posts t
       + match Flag.place t with Flag.AtPoll => 0 | _ => 1 end.
Proof.
  induction schedule as [| m rest IH]; intros t; [cbn; lia |].
  change (Flag.play (m :: rest) t) with (Flag.play rest (Flag.move t m)).
  specialize (IH (Flag.move t m)).
  destruct t as [v pl n].
  destruct m as [line |]; [exact IH |].
  destruct pl; cbn in *;
    try destruct (reset_requested v); cbn in *; lia.
Qed.

(** What the input thread does to the flag and to its own loop does not
    depend on the previous-triggered variable. *)
Lemma input_thread_flag_independent lines :
  forall prev1 prev2 flag running,
    reset_requested (input_thread lines (mkLoop prev1 flag running))
    = reset_requested (input_thread lines (mkLoop prev2 flag running))
    /\ reader_running (input_thread lines (mkLoop prev1 flag running))
       = reader_running (input_thread lines (mkLoop prev2 flag running)).
Proof.
  induction lines as [| line rest IH]; intros prev1 prev2 flag running;
    [now split |].
  cbn. destruct running; cbn; [| now split].
  destruct (String.eqb line ""); cbn; [now split |].
  destruct (is_reset_command line); apply IH.
Qed.

(** C9: however many reset commands the input thread reads before the
    loop tests the flag (at least one line that is "r" or "reset" once
    stripped and lowered, among any other lines short of end of input),
    the cycle makes exactly one POST to /reset and ends with the flag
    cleared; setting a flag that is set changes nothing, and no cycle makes
    more than one reset call. The loop clears the flag before it posts: in
    every interleaving of the two threads a turn posts at most once, the
    commands read before the clear are absorbed in that one POST, and a
    command read after the clear, while the POST is still to come or under
    way, leaves the flag set for the next turn: the lines read after the
    clear act on the flag as lines typed before the next test do. *)
Theorem queued_reset_commands_make_one_reset_call
    (w : World) host port inp l s before cmd after
    (Hrun : reader_running l = true)
    (Htyped : typed inp = before ++ cmd :: after)
    (Hopen : Forall (fun line => line <> "") before)
    (Hcmd : is_reset_command cmd = true) :
  exists lb s1 l' s' evs,
    reset_step w host port inp (input_thread (typed inp) l) s
      = (Return lb, s1)
    /\ cycle w host port inp l s = (Return l', s')
    /\ trace s' = trace s ++ evs
    /\ count (is_reset_call host port) evs = 1
    /\ reset_requested l' = false
    /\ (forall line l0,
           is_reset_command line = true ->
           reset_requested l0 = true ->
           input_thread [line] l0 = l0)
    /\ (forall inp0 l0 s0 l1 s1,
           cycle w host port inp0 l0 s0 = (Return l1, s1) ->
           exists evs0,
             trace s1 = trace s0 ++ evs0
             /\ count (is_reset_call host port) evs0 <= 1)
    /\ (forall schedule t,
           Flag.place t = Flag.AtTest ->
           Flag.posts (Flag.play schedule t) <= S (Flag.posts t))
    /\ (forall earlier line later t,
           Flag.place (Flag.play earlier t) = Flag.AtPost
           \/ Flag.place (Flag.play earlier t) = Flag.AtPoll ->
           reader_running (Flag.vars (Flag.play earlier t)) = true ->
           is_reset_command line = true ->
           reset_requested
             (Flag.vars (Flag.play (earlier ++ Flag.Reads line :: later) t))
           = true)
    /\ (let t := Flag.play
                   (Flag.Advances :: map Flag.Reads (racing inp)
                    ++ [Flag.Advances; Flag.Advances])
                   (Flag.mkTurn (input_thread (typed inp) l)
                                Flag.AtTest 0) in
        Flag.place t = Flag.AtPoll
        /\ Flag.posts t = count (is_reset_call host port) evs
        /\ reset_requested (Flag.vars t) = reset_requested lb
        /\ reader_running (Flag.vars t) = reader_running lb)
    /\ (forall during later,
           let t := Flag.play
                      (Flag.Advances :: map Flag.Reads (racing inp)
                       ++ Flag.Advances :: map Flag.Reads during
                       ++ Flag.Advances :: map Flag.Reads later)
                      (Flag.mkTurn (input_thread (typed inp) l)
                                   Flag.AtTest 0) in
           Flag.posts t = 1
           /\ reset_requested (Flag.vars t)
              = reset_requested (input_thread (during ++ later) lb)
           /\ reader_running (Flag.vars t)
              = reader_running (input_thread (during ++ later) lb)).
Proof.
  assert (Hset : reset_requested (input_thread (typed inp) l) = true)
    by (rewrite Htyped; now apply input_thread_sets_flag_among).
  destruct (cycle_steps w host port inp l s)
    as (s1 & s2 & s' & Hr & Hg & Hc & Ht).
  exists (before_poll w host port inp l s), s1,
    (cycle_loop w host port inp l s), s',
    (cycle_events w host port inp l s).
  repeat (split; [assumption |]).
  split; [now rewrite count_reset_calls_cycle, Hset |].
  split.
  { unfold cycle_loop, report_loop, before_poll, reset_loop. rewrite Hset.
    now destruct (is_None _). }
  split.
  { intros line l0 Hline Hl0. cbn.
    destruct l0 as [prev flag running]; cbn in *. subst flag.
    destruct running; cbn; [| reflexivity].
    destruct (String.eqb line "") eqn:Hempty.
    + apply String.eqb_eq in Hempty. subst line. discriminate.
    + now rewrite Hline. }
  split.
  { intros inp0 l0 s0 l1 s3 Hc0.
    destruct (cycle_steps w host port inp0 l0 s0)
      as (? & ? & s0' & _ & _ & Hc0' & Ht0).
    rewrite Hc0 in Hc0'. injection Hc0' as -> ->.
    exists (cycle_events w host port inp0 l0 s0).
    split; [assumption |].
    rewrite count_reset_calls_cycle.
    destruct (reset_requested (input_thread (typed inp0) l0)); lia. }
  split.
  { intros schedule t Hplace.
    pose proof (posts_bound schedule t) as H. rewrite Hplace in H. lia. }
  split.
  { intros earlier line later t Hplace Hreading Hline.
    rewrite play_app.
    change (Flag.play (Flag.Reads line :: later) (Flag.play earlier t))
      with (Flag.play later
              (Flag.move (Flag.play earlier t) (Flag.Reads line))).
    apply flag_kept_past_clear; [exact Hplace |].
    cbn. rewrite Hreading. cbn.
    destruct (String.eqb line "") eqn:Hempty.
    + apply String.eqb_eq in Hempty. subst line. discriminate.
    + now rewrite Hline. }
  cbv zeta.
  change (Flag.play (Flag.Advances :: map Flag.Reads (racing inp)
                     ++ [Flag.Advances; Flag.Advances])
            (Flag.mkTurn (input_thread (typed inp) l) Flag.AtTest 0))
    with (Flag.play (map Flag.Reads (racing inp)
                     ++ [Flag.Advances; Flag.Advances])
            (Flag.move (Flag.mkTurn (input_thread (typed inp) l)
                          Flag.AtTest 0) Flag.Advances)).
  cbn [Flag.move Flag.place Flag.vars Flag.posts]. rewrite Hset.
  rewrite play_app, play_reads.
  cbn [Flag.play fold_left Flag.move Flag.place Flag.vars Flag.posts].
  split.
  { rewrite count_reset_calls_cycle, Hset.
    unfold before_poll, reset_loop. rewrite Hset.
    cbn [reset_requested reader_running]. auto. }
  intros during later.
  change (Flag.play (Flag.Advances :: map Flag.Reads (racing inp)
                     ++ Flag.Advances :: map Flag.Reads during
                     ++ Flag.Advances :: map Flag.Reads later)
            (Flag.mkTurn (input_thread (typed inp) l) Flag.AtTest 0))
    with (Flag.play (map Flag.Reads (racing inp)
                     ++ Flag.Advances :: map Flag.Reads during
                     ++ Flag.Advances :: map Flag.Reads later)
            (Flag.move (Flag.mkTurn (input_thread (typed inp) l)
                          Flag.AtTest 0) Flag.Advances)).
  cbn [Flag.move Flag.place Flag.vars Flag.posts]. rewrite Hset.
  rewrite play_app, play_reads.
  cbn [Flag.place Flag.vars Flag.posts].
  change (Flag.play (Flag.Advances :: map Flag.Reads during
                     ++ Flag.Advances :: map Flag.Reads later) ?t)
    with (Flag.play (map Flag.Reads during
                     ++ Flag.Advances :: map Flag.Reads later)
            (Flag.move t Flag.Advances)).
  cbn [Flag.move Flag.place Flag.vars Flag.posts].
  rewrite play_app, play_reads.
  cbn [Flag.place Flag.vars Flag.posts].
  change (Flag.play (Flag.Advances :: map Flag.Reads later) ?t)
    with (Flag.play (map Flag.Reads later) (Flag.move t Flag.Advances)).
  cbn [Flag.move Flag.place Flag.vars Flag.posts].
  rewrite play_reads. cbn [Flag.place Flag.vars Flag.posts].
  split; [reflexivity |].
  assert (Happ : forall a b l0,
             input_thread (a ++ b) l0 = input_thread b (input_thread a l0)).
  { induction a as [| x a IH]; intros b l0; [reflexivity |].
    cbn [app]. rewrite (input_thread_one_then_rest x (a ++ b)), IH.
    now rewrite <- input_thread_one_then_rest. }
  rewrite <- Happ.
  unfold before_poll, reset_loop. rewrite Hset.
  apply input_thread_flag_independent.
Qed.

Lemma queued_reset_commands_make_one_reset_call_witness :
  typed (Sample.typing ["hello"; "r"; " Reset "])
  = [Sample.line "hello"] ++ Sample.line "r" :: [Sample.line " Reset "]
  /\ exists l' s',
       cycle Sample.still_triggered Sample.host Sample.port
         (Sample.typing ["hello"; "r"; " Reset "]) initial_loop initial_state
       = (Return l', s')
       /\ count (is_reset_call Sample.host Sample.port) (trace s') = 1
       /\ reset_requested l' = false.
Proof.
  split; [reflexivity |].
  destruct (queued_reset_commands_make_one_reset_call
              Sample.still_triggered Sample.host Sample.port
              (Sample.typing ["hello"; "r"; " Reset "])
              initial_loop initial_state
              [Sample.line "hello"] (Sample.line "r") [Sample.line " Reset "]
              eq_refl eq_refl
              ltac:(repeat constructor; discriminate) eq_refl)
    as (lb & s1 & l' & s' & evs & _ & Hc & Ht & Hn & Hf & _).
  exists l', s'. rewrite Ht. cbn [trace initial_state app]. auto.
Defined.

(** C10: when the status response is a JSON object whose "triggered"
    member is not a boolean (the number 1, say), [get_status] returns that
    value as it is. The edge test compares by identity with [False] and
    [True], so the sample prints no "Triggered!"; unless it is [None] it is
    stored as the previous-triggered variable, and while the variable holds
    it a [True] sample prints no "Triggered!" either. *)
Theorem non_boolean_triggered_is_passed_through_and_mutes_edge
    (w : World) host port timeout s resp raw text d v
    (Hopen : urlopen w (net_calls s) (status_request host port) timeout
             = inr resp)
    (Hread : read resp = inr raw)
    (Hdecode : decode w raw = inr text)
    (Hjson : json_loads w text = inr (PyDict d))
    (Hfield : dict_lookup d "triggered" = Some v)
    (Hnonbool : forall b, v <> PyBool b) :
  (exists elapsed s',
      get_status w host port timeout s = (Return (v, elapsed), s'))
  /\ (forall elapsed l s1,
         exists l1 s1' evs,
           report (v, elapsed) l s1 = (Return l1, s1')
           /\ trace s1' = trace s1 ++ evs
           /\ ~ In (Print MsgTriggered) evs
           /\ (v <> PyNone -> prev_triggered l1 = v))
  /\ (forall elapsed l s2,
         prev_triggered l = v ->
         exists l2 s2' evs,
           report (PyBool true, elapsed) l s2 = (Return l2, s2')
           /\ trace s2' = trace s2 ++ evs
           /\ ~ In (Print MsgTriggered) evs).
Proof.
  assert (Hedge1 : forall prev, edge prev v = false).
  { intros prev. destruct (edge prev v) eqn:He; [| reflexivity].
    apply edge_iff in He. destruct He as [_ He]. now destruct (Hnonbool true). }
  assert (Hedge2 : forall u, edge v u = false).
  { intros u. destruct (edge v u) eqn:He; [| reflexivity].
    apply edge_iff in He. destruct He as [He _]. now destruct (Hnonbool false). }
  split; [| split].
  - rewrite get_status_eq.
    unfold sample_at, fetch_text, parse_triggered.
    rewrite Hopen, Hread, Hdecode, Hjson, Hfield. eauto.
  - intros elapsed l s1. rewrite report_eq.
    do 3 eexists. split; [reflexivity |]. split; [reflexivity |].
    split.
    + rewrite In_triggered_filter, filter_triggered_report. cbn [fst].
      rewrite Hedge1. now destruct (is_None v).
    + intros Hv. unfold report_loop. cbn [fst].
      destruct (is_None v) eqn:Hn; [apply is_None_iff in Hn; contradiction |].
      reflexivity.
  - intros elapsed l s2 Hprev. rewrite report_eq.
    do 3 eexists. split; [reflexivity |]. split; [reflexivity |].
    rewrite In_triggered_filter, filter_triggered_report. cbn [fst is_None].
    rewrite Hprev, Hedge2. intros [].
Qed.

Lemma non_boolean_triggered_is_passed_through_and_mutes_edge_witness :
  json_loads Sample.one_for_true (Sample.body "1")
  = inr (PyDict [("triggered", PyInt 1)])
  /\ (exists elapsed s',
         get_status Sample.one_for_true Sample.host Sample.port
           default_timeout initial_state
         = (Return (PyInt 1, elapsed), s'))
  /\ (forall elapsed l s2,
         prev_triggered l = PyInt 1 ->
         exists l2 s2' evs,
           report (PyBool true, elapsed) l s2 = (Return l2, s2')
           /\ trace s2' = trace s2 ++ evs
           /\ ~ In (Print MsgTriggered) evs).
Proof.
  split; [reflexivity |].
  destruct (non_boolean_triggered_is_passed_through_and_mutes_edge
              Sample.one_for_true Sample.host Sample.port default_timeout
              initial_state
              (mkResponse 200 (inr (list_byte_of_string (Sample.body "1"))))
              (list_byte_of_string (Sample.body "1"))
              (Sample.body "1")
              [("triggered", PyInt 1)] (PyInt 1)
              eq_refl eq_refl eq_refl eq_refl eq_refl
              ltac:(intros b; discriminate))
    as (Hget & _ & Hnext).
  split; assumption.
Defined.

(* ------------------------------------------------------------------ *)
(** *** Discovery *)

Lemma prefix_iff needle :
  forall hay,
    String.prefix needle hay = true <->
    exists after, hay = (needle ++ after)%string.
Proof.
  induction needle as [| c needle IH]; intros hay.
  - split; [intros _; now exists hay | now destruct hay].
  - destruct hay as [| c' hay]; cbn.
    + split; [discriminate | intros [after H]; discriminate].
    + destruct (Ascii.ascii_dec c c') as [<- | Hneq].
      * rewrite IH. split; intros [after H]; exists after.
        -- now rewrite H.
        -- now injection H.
      * split; [discriminate |].
        intros [after H]. injection H as H _. congruence.
Qed.

Lemma contains_unfold needle hay :
  PyStr.contains needle hay =
  String.prefix needle hay
  || match hay with
     | EmptyString => false
     | String _ hay' => PyStr.contains needle hay'
     end.
Proof. destruct hay; reflexivity. Qed.

(** [in] on strings is the substring relation. *)
Lemma contains_iff needle :
  forall hay,
    PyStr.contains needle hay = true <-> Spec.substring_of needle hay.
Proof.
  unfold Spec.substring_of.
  induction hay as [| c hay IH]; rewrite contains_unfold, orb_true_iff.
  - split.
    + intros [H | H]; [| discriminate].
      apply prefix_iff in H. destruct H as [after H].
      now exists EmptyString, after.
    + intros (before & after & H). left. apply prefix_iff.
      destruct before; [now exists after | discriminate].
  - split.
    + intros [H | H].
      * apply prefix_iff in H. destruct H as [after H].
        now exists EmptyString, after.
      * apply IH in H. destruct H as (before & after & ->).
        now exists (String c before), after.
    + intros (before & after & H).
      destruct before as [| c' before].
      * left. apply prefix_iff. now exists after.
      * right. apply IH. injection H as _ H. now exists before, after.
Qed.

(** The list the listener walks holds the entries of the record's address
    list, in order. *)
Lemma first_ipv4_listed info :
  first_ipv4 (addrs_of info) = find Spec.is_ipv4 (Spec.listed info).
Proof.
  unfold addrs_of, Spec.listed.
  assert (Hmap : forall l,
             first_ipv4 (map Some l) = find Spec.is_ipv4 l).
  { induction l as [| b l IH]; [reflexivity |].
    cbn. unfold Spec.is_ipv4 at 1.
    now destruct (List.length b =? 4)%nat. }
  destruct (addresses info) as [[| a l] |].
  - destruct (address info) as [[b |] |]; reflexivity.
  - apply Hmap.
  - destruct (address info) as [[b |] |]; reflexivity.
Qed.

Lemma find_is_ipv4_length l addr :
  find Spec.is_ipv4 l = Some addr -> List.length addr = 4%nat.
Proof.
  intros H. apply find_some in H. destruct H as [_ H].
  now apply Nat.eqb_eq.
Qed.

Lemma find_is_ipv4_exists l :
  existsb Spec.is_ipv4 l = true <->
  exists addr, find Spec.is_ipv4 l = Some addr.
Proof.
  induction l as [| b l IH]; cbn.
  - split; [discriminate | intros [? ?]; discriminate].
  - destruct (Spec.is_ipv4 b); cbn; [| assumption].
    split; [intros _; now exists b | reflexivity].
Qed.

Lemma inet_ntoa_dotted addr :
  List.length addr = 4%nat -> inet_ntoa addr = Spec.dotted_decimal addr.
Proof.
  destruct addr as [| a [| b [| c [| d [| ? ?]]]]]; try discriminate.
  reflexivity.
Qed.

Lemma port_or_80_advertised info :
  port_or_80 info = Spec.advertised_port info.
Proof.
  unfold port_or_80, Spec.advertised_port.
  destruct (port info) as [[| p | p] |]; reflexivity.
Qed.

(** What the listener does with one candidate while nothing is accepted. *)
Lemma add_service_None ad :
  add_service None ad =
  if PyStr.contains (PyStr.lower INSTANCE_NAME) (PyStr.lower (name ad))
     && Spec.carries_ipv4 ad
  then Spec.answer ad else None.
Proof.
  unfold add_service, Spec.carries_ipv4, Spec.answer.
  destruct (service_info ad) as [info |]; [| now rewrite andb_false_r].
  destruct (PyStr.contains _ _); cbn [negb andb]; [| reflexivity].
  rewrite first_ipv4_listed.
  destruct (existsb Spec.is_ipv4 (Spec.listed info)) eqn:He.
  - apply find_is_ipv4_exists in He. destruct He as [addr He].
    rewrite He, port_or_80_advertised,
      (inet_ntoa_dotted addr (find_is_ipv4_length _ _ He)).
    reflexivity.
  - destruct (find Spec.is_ipv4 (Spec.listed info)) as [addr |] eqn:Hf;
      try reflexivity.
    assert (existsb Spec.is_ipv4 (Spec.listed info) = true)
      by (apply find_is_ipv4_exists; now exists addr).
    congruence.
Qed.

Lemma answer_of_carrier ad :
  Spec.carries_ipv4 ad = true -> exists a, Spec.answer ad = Some a.
Proof.
  unfold Spec.carries_ipv4, Spec.answer.
  destruct (service_info ad) as [info |]; [| discriminate].
  intros [addr ->]%find_is_ipv4_exists. eauto.
Qed.

(** Once a candidate is accepted the listener ignores the others. *)
Lemma browser_thread_Some batch a :
  browser_thread batch (Some a) = Some a.
Proof.
  unfold browser_thread. induction batch as [| ad rest IH]; cbn; auto.
Qed.

Lemma browser_thread_cons ad rest :
  browser_thread (ad :: rest) None =
  match add_service None ad with
  | Some a => Some a
  | None => browser_thread rest None
  end.
Proof.
  unfold browser_thread. cbn [fold_left].
  destruct (add_service None ad) as [a |]; [| reflexivity].
  apply browser_thread_Some.
Qed.

Lemma browser_thread_app pre post r :
  browser_thread (pre ++ post) r = browser_thread post (browser_thread pre r).
Proof. unfold browser_thread. apply fold_left_app. Qed.

(** The listener computes the first match of the specification, and the
    specification's first match is unique. *)
Lemma browser_thread_first_match batch r :
  Spec.first_match batch r <-> browser_thread batch None = r.
Proof.
  split.
  - induction 1 as [| ad rest a Hname Hcarry Hans
                    | ad rest r Hname _ IH | ad rest r Hcarry _ IH];
      [reflexivity | | |];
      rewrite browser_thread_cons, add_service_None.
    + apply contains_iff in Hname. now rewrite Hname, Hcarry, Hans.
    + destruct (PyStr.contains _ _) eqn:Hc; [| exact IH].
      apply contains_iff in Hc. contradiction.
    + now rewrite Hcarry, andb_false_r.
  - intros <-. induction batch as [| ad rest IH]; [constructor |].
    rewrite browser_thread_cons, add_service_None.
    destruct (PyStr.contains _ _) eqn:Hc.
    + destruct (Spec.carries_ipv4 ad) eqn:Hcarry; cbn [andb].
      * destruct (answer_of_carrier ad Hcarry) as [a Ha]. rewrite Ha.
        apply Spec.accept; [now apply contains_iff | assumption..].
      * now apply Spec.skip_address.
    + apply Spec.skip_name; [| exact IH].
      intros H%contains_iff. unfold Spec.name_matches in *. congruence.
Qed.

(** The wait loop when a candidate is accepted at some test of the loop
    condition, the clock reading before the deadline at the tests before. *)
Lemma discover_wait_found (w : World) deadline batch rest late a :
  browser_thread batch None = Some a ->
  forall pre s,
    Forall (fun b => browser_thread b None = None) pre ->
    (forall i, i < List.length pre ->
               (monotonic w (clock_reads s + i) <? deadline)%float = true) ->
    exists s',
      discover_wait w deadline (pre ++ batch :: rest) late None s
        = (Return (Some a), s')
      /\ net_calls s' = net_calls s
      /\ trace s' = trace s ++ repeat (Sleep 0.2%float) (List.length pre)
                            ++ [BrowserCancel; ZeroconfClose].
Proof.
  intros Hbatch.
  induction pre as [| b pre IH]; intros s Hpre Hclock.
  - cbn [app discover_wait]. rewrite Hbatch.
    unfold_py; cbn. eexists. split; [reflexivity |]. cbn.
    now rewrite <- app_assoc.
  - cbn [app discover_wait].
    rewrite (Forall_inv Hpre).
    pose proof (Hclock 0 ltac:(cbn; lia)) as Hnow.
    rewrite Nat.add_0_r in Hnow.
    unfold bind, time_monotonic, time_sleep, emit. cbv beta iota.
    rewrite Hnow. cbn [clock_reads net_calls trace].
    edestruct (IH (mkState (S (clock_reads s)) (net_calls s)
                           (trace s ++ [Sleep 0.2%float])))
      as (s' & Hw & Hn & Ht).
    + exact (Forall_inv_tail Hpre).
    + intros i Hi. cbn [clock_reads].
      replace (S (clock_reads s) + i) with (clock_reads s + S i) by lia.
      apply Hclock. cbn. lia.
    + exists s'. split; [exact Hw |]. split; [exact Hn |].
      rewrite Ht. cbn [trace List.length repeat]. now rewrite <- !app_assoc.
Qed.

(** The wait loop when nothing is accepted and the clock passes the
    deadline at some test of the loop condition. *)
Lemma discover_wait_timeout (w : World) deadline last rest late :
  browser_thread last None = None ->
  forall pre s,
    Forall (fun b => browser_thread b None = None) pre ->
    (forall i, i < List.length pre ->
               (monotonic w (clock_reads s + i) <? deadline)%float = true) ->
    (monotonic w (clock_reads s + List.length pre) <? deadline)%float = false ->
    exists s',
      discover_wait w deadline (pre ++ last :: rest) late None s
        = (Return (browser_thread late None), s')
      /\ net_calls s' = net_calls s
      /\ trace s' = trace s ++ repeat (Sleep 0.2%float) (List.length pre)
                            ++ [BrowserCancel; ZeroconfClose].
Proof.
  intros Hlast.
  induction pre as [| b pre IH]; intros s Hpre Hclock Hpast.
  - cbn [app discover_wait]. rewrite Hlast.
    cbn [List.length] in Hpast. rewrite Nat.add_0_r in Hpast.
    unfold bind, time_monotonic. cbv beta iota. rewrite Hpast.
    unfold_py; cbn. eexists. split; [reflexivity |]. cbn.
    now rewrite <- app_assoc.
  - cbn [app discover_wait].
    rewrite (Forall_inv Hpre).
    pose proof (Hclock 0 ltac:(cbn; lia)) as Hnow.
    rewrite Nat.add_0_r in Hnow.
    unfold bind, time_monotonic, time_sleep, emit. cbv beta iota.
    rewrite Hnow. cbn [clock_reads net_calls trace].
    edestruct (IH (mkState (S (clock_reads s)) (net_calls s)
                           (trace s ++ [Sleep 0.2%float])))
      as (s' & Hw & Hn & Ht).
    + exact (Forall_inv_tail Hpre).
    + intros i Hi. cbn [clock_reads].
      replace (S (clock_reads s) + i) with (clock_reads s + S i) by lia.
      apply Hclock. cbn. lia.
    + cbn [clock_reads].
      replace (S (clock_reads s) + List.length pre)
        with (clock_reads s + List.length (b :: pre)) by (cbn; lia).
      exact Hpast.
    + exists s'. split; [exact Hw |]. split; [exact Hn |].
      rewrite Ht. cbn [trace List.length repeat]. now rewrite <- !app_assoc.
Qed.

Lemma discover_device_unfold (w : World) ads s :
  discover_device w ads s =
  discover_wait w (monotonic w (clock_reads s) + DISCOVERY_TIMEOUT)%float
    (ticks ads) (late ads) None
    (mkState (S (clock_reads s)) (net_calls s)
             (trace s ++ [ZeroconfOpen; BrowserStart SERVICE_TYPE])).
Proof.
  unfold discover_device. unfold_py; cbn. now rewrite <- app_assoc.
Qed.

(** C7 (amended): the listener accepts the first candidate whose record
    is fetched, whose name contains "Doormon" without regard to case, and
    whose address list (the record's [addresses] when that is non-empty,
    otherwise its single [address]) has a 4-byte entry; the answer is the
    first such entry in dotted-decimal form with the advertised port, or 80
    when the port is 0 or [None]; candidates delivered after an accepted
    one change nothing. When such a candidate is delivered before the
    deadline, [discover_device] returns its answer. *)
Theorem discover_accepts_first_match
    (w : World) pre batch rest late_ads a s
    (Hpre : Forall (fun b => Spec.first_match b None) pre)
    (Hmatch : Spec.first_match batch (Some a))
    (Hclock : forall i, i < List.length pre ->
        (monotonic w (S (clock_reads s) + i)
         <? monotonic w (clock_reads s) + DISCOVERY_TIMEOUT)%float = true) :
  (forall ads r, Spec.first_match ads r <-> browser_thread ads None = r)
  /\ (forall ads a0 later,
         browser_thread ads None = Some a0 ->
         browser_thread (ads ++ later) None = Some a0)
  /\ (exists s',
         discover_device w (mkAdverts (pre ++ batch :: rest) late_ads) s
         = (Return (Some a), s')).
Proof.
  split; [exact browser_thread_first_match |].
  split.
  { intros ads a0 later H. rewrite browser_thread_app, H.
    apply browser_thread_Some. }
  rewrite discover_device_unfold. cbn [ticks late].
  apply browser_thread_first_match in Hmatch.
  edestruct (discover_wait_found w
               (monotonic w (clock_reads s) + DISCOVERY_TIMEOUT)%float
               batch rest late_ads a Hmatch pre
               (mkState (S (clock_reads s)) (net_calls s)
                  (trace s ++ [ZeroconfOpen; BrowserStart SERVICE_TYPE])))
    as (s' & Hw & _).
  - eapply Forall_impl; [| exact Hpre].
    intros b Hb. now apply browser_thread_first_match.
  - exact Hclock.
  - exists s'. exact Hw.
Qed.

Lemma discover_accepts_first_match_witness :
  Spec.first_match [Sample.printer; Sample.doormon; Sample.other_doormon]
    (Some ("192.168.1.50", 80%Z))
  /\ exists s',
       discover_device Sample.slow_clock Sample.found_at_second_test
         initial_state
       = (Return (Some ("192.168.1.50", 80%Z)), s').
Proof.
  assert (Hmatch : Spec.first_match
                     [Sample.printer; Sample.doormon; Sample.other_doormon]
                     (Some ("192.168.1.50", 80%Z)))
    by (apply browser_thread_first_match; reflexivity).
  split; [exact Hmatch |].
  apply (discover_accepts_first_match Sample.slow_clock
           [[]] [Sample.printer; Sample.doormon; Sample.other_doormon] [] []
           ("192.168.1.50", 80%Z) initial_state).
  - repeat constructor.
  - exact Hmatch.
  - intros [| i] Hi; [reflexivity | cbn in Hi; lia].
Defined.

(** C7, as stated, fails: the first candidate below is named "Doormon" and
    holds the 4-byte address 192.168.1.50 in its [address] attribute, but
    its [addresses] lists an IPv6 address only; the listener looks at
    [addresses] alone, passes the candidate over and accepts the second
    one. *)
Lemma first_holder_of_ipv4_address_is_passed_over :
  Spec.name_matches Sample.ipv6_first
  /\ Spec.holds_ipv4 Sample.ipv6_first = true
  /\ add_service None Sample.ipv6_first = None
  /\ browser_thread [Sample.ipv6_first; Sample.other_doormon] None
     = Some ("10.0.0.2", 8080%Z)
  /\ exists s',
       discover_device Sample.slow_clock
         (mkAdverts [[Sample.ipv6_first; Sample.other_doormon]] [])
         initial_state
       = (Return (Some ("10.0.0.2", 8080%Z)), s').
Proof.
  split; [apply contains_iff; reflexivity |].
  repeat (split; [reflexivity |]).
  exists (snd (discover_device Sample.slow_clock
                 (mkAdverts [[Sample.ipv6_first; Sample.other_doormon]] [])
                 initial_state)).
  reflexivity.
Qed.

(** C8 (amended): when no candidate has been accepted by the time the
    result is read for the last time (none at a test of the loop condition
    up to the one at which the clock has passed the deadline, 15 seconds
    after the reading taken at the start, and none between that test and
    the cancelling of the browser), every earlier test having been followed
    by a sleep of 0.2 seconds, [discover_device] returns [None]; [main]
    then prints the diagnostic on standard error and exits with status 1,
    having made no HTTP request: no poll cycle ran. *)
Theorem discovery_timeout_exits_with_status_1
    (w : World) pre last rest late_ads inputs s
    (Hpre : Forall (fun b => browser_thread b None = None) pre)
    (Hlast : browser_thread last None = None)
    (Hlate : browser_thread late_ads None = None)
    (Hclock : forall i, i < List.length pre ->
        (monotonic w (S (clock_reads s) + i)
         <? monotonic w (clock_reads s) + DISCOVERY_TIMEOUT)%float = true)
    (Hpast :
        (monotonic w (S (clock_reads s) + List.length pre)
         <? monotonic w (clock_reads s) + DISCOVERY_TIMEOUT)%float = false) :
  (exists s',
      discover_device w (mkAdverts (pre ++ last :: rest) late_ads) s
      = (Return None, s'))
  /\ (exists s' evs,
         main w (mkAdverts (pre ++ last :: rest) late_ads) inputs s
         = (Raise (SystemExit 1), s')
         /\ trace s' = trace s ++ evs
         /\ evs = [Print MsgDiscovering; ZeroconfOpen;
                   BrowserStart SERVICE_TYPE]
                  ++ repeat (Sleep 0.2%float) (List.length pre)
                  ++ [BrowserCancel; ZeroconfClose; PrintErr MsgNoDevice]
         /\ count is_urlopen evs = 0
         /\ net_calls s' = net_calls s).
Proof.
  assert (Hdisc : forall tr,
             exists s',
               discover_device w (mkAdverts (pre ++ last :: rest) late_ads)
                 (mkState (clock_reads s) (net_calls s) tr)
               = (Return None, s')
               /\ net_calls s' = net_calls s
               /\ trace s' = tr ++ [ZeroconfOpen; BrowserStart SERVICE_TYPE]
                                ++ repeat (Sleep 0.2%float) (List.length pre)
                                ++ [BrowserCancel; ZeroconfClose]).
  { intros tr. rewrite discover_device_unfold.
    cbn [ticks late clock_reads net_calls trace].
    edestruct (discover_wait_timeout w
                 (monotonic w (clock_reads s) + DISCOVERY_TIMEOUT)%float
                 last rest late_ads Hlast pre
                 (mkState (S (clock_reads s)) (net_calls s)
                    (tr ++ [ZeroconfOpen; BrowserStart SERVICE_TYPE])))
      as (s' & Hw & Hn & Ht);
      [exact Hpre | exact Hclock | exact Hpast |].
    rewrite Hlate in Hw. exists s'. split; [exact Hw |].
    split; [exact Hn |]. rewrite Ht. cbn [trace]. now rewrite <- !app_assoc. }
  split.
  - destruct (Hdisc (trace s)) as (s' & Hd & _).
    destruct s. exists s'. exact Hd.
  - destruct (Hdisc (trace s ++ [Print MsgDiscovering])) as (s' & Hd & Hn & Ht).
    unfold main. unfold bind at 1. unfold print at 1. unfold emit at 1.
    unfold bind at 1. rewrite Hd.
    unfold_py. cbn.
    do 2 eexists. split; [reflexivity |]. cbn [trace net_calls].
    split; [rewrite Ht, <- !app_assoc; reflexivity |].
    split; [reflexivity |].
    split; [| exact Hn].
    unfold count. cbn [app filter is_urlopen].
    rewrite filter_app.
    assert (Hsleeps : forall n,
               filter is_urlopen (repeat (Sleep 0.2%float) n) = [])
      by (induction n; [reflexivity | assumption]).
    now rewrite Hsleeps.
Qed.

Lemma discovery_timeout_exits_with_status_1_witness :
  browser_thread [Sample.printer] None = None
  /\ exists s',
       main Sample.slow_clock Sample.nobody_home [Sample.quiet] initial_state
       = (Raise (SystemExit 1), s')
       /\ count is_urlopen (trace s') = 0.
Proof.
  split; [reflexivity |].
  destruct (discovery_timeout_exits_with_status_1 Sample.slow_clock
              [[Sample.printer]; []] [] [[]] [] [Sample.quiet] initial_state)
    as (_ & s' & evs & Hmain & Ht & _ & Hcount & _).
  - repeat constructor.
  - reflexivity.
  - reflexivity.
  - intros [| [| i]] Hi; [reflexivity | reflexivity | cbn in Hi; lia].
  - reflexivity.
  - exists s'. split; [exact Hmain |].
    rewrite Ht. exact Hcount.
Defined.

(** C8, as stated, fails: no candidate is accepted at any test of the
    loop and the clock is past the deadline at the third test, but the
    device is announced between that test and the cancelling of the
    browser; [discover_device] returns its address and [main], instead of
    exiting with status 1, polls it. *)
Lemma match_accepted_after_deadline_is_polled :
  Forall (fun b => browser_thread b None = None) (ticks Sample.late_arrival)
  /\ (monotonic Sample.slow_clock 3
      <? monotonic Sample.slow_clock 0 + DISCOVERY_TIMEOUT)%float = false
  /\ exists s',
       main Sample.slow_clock Sample.late_arrival [Sample.quiet] initial_state
       = (Return tt, s')
       /\ In (Print (MsgFound "192.168.1.50" 80%Z)) (trace s')
       /\ count is_urlopen (trace s') = 1
       /\ ~ In (PrintErr MsgNoDevice) (trace s').
Proof.
  split; [repeat constructor |]. split; [reflexivity |].
  exists (snd (main Sample.slow_clock Sample.late_arrival [Sample.quiet]
                 initial_state)).
  split; [reflexivity |].
  split; [vm_compute; tauto |].
  split; [reflexivity |].
  vm_compute. intros H.
  repeat (destruct H as [H | H]; [discriminate |]). exact H.
Qed.

(* ------------------------------------------------------------------ *)
(** *** Whole runs of the polling loop *)

Lemma count_app p evs1 evs2 :
  count p (evs1 ++ evs2) = count p evs1 + count p evs2.
Proof. unfold count. now rewrite filter_app, length_app. Qed.

Lemma run_cycles_cons (w : World) host port inp rest l s :
  exists s1,
    cycle w host port inp l s = (Return (cycle_loop w host port inp l s), s1)
    /\ trace s1 = trace s ++ cycle_events w host port inp l s
    /\ run_cycles w host port (inp :: rest) l s
       = run_cycles w host port rest (cycle_loop w host port inp l s) s1
    /\ outcomes w host port (inp :: rest) l s
       = fst (cycle_sample w host port inp l s)
         :: outcomes w host port rest (cycle_loop w host port inp l s) s1.
Proof.
  destruct (cycle_steps w host port inp l s) as (? & ? & s1 & _ & _ & Hc & Ht).
  exists s1. repeat split; try assumption.
  - cbn. unfold bind. now rewrite Hc.
  - cbn. now rewrite Hc.
Qed.

(** A property of the loop variables kept by every cycle, with a count
    that every cycle started under it contributes. *)
Lemma run_cycles_counting (w : World) host port
    (Inv : Loop -> Prop) (p : effect -> bool) (c : nat) :
  (forall inp l s,
      Inv l ->
      Inv (cycle_loop w host port inp l s)
      /\ count p (cycle_events w host port inp l s) = c) ->
  forall inputs l s,
    Inv l ->
    exists l' s' evs,
      run_cycles w host port inputs l s = (Return l', s')
      /\ trace s' = trace s ++ evs
      /\ count p evs = c * List.length inputs
      /\ Inv l'.
Proof.
  intros Hstep.
  induction inputs as [| inp rest IH]; intros l s Hl.
  - exists l, s, []. cbn. rewrite app_nil_r, Nat.mul_0_r. auto.
  - destruct (run_cycles_cons w host port inp rest l s)
      as (s1 & _ & Ht & Hrun & _).
    destruct (Hstep inp l s Hl) as [Hl1 Hc].
    destruct (IH _ s1 Hl1) as (l' & s' & evs & Hr & Ht' & Hn & Hl').
    exists l', s', (cycle_events w host port inp l s ++ evs).
    rewrite Hrun. split; [exact Hr |].
    split; [rewrite Ht', Ht; now rewrite app_assoc |].
    split; [| exact Hl'].
    rewrite count_app, Hc, Hn. cbn [List.length]. lia.
Qed.

(** A property of single effects that every cycle's effects have. *)
Lemma run_cycles_Forall (w : World) host port (P : effect -> Prop) :
  (forall inp l s, Forall P (cycle_events w host port inp l s)) ->
  forall inputs l s,
    exists l' s' evs,
      run_cycles w host port inputs l s = (Return l', s')
      /\ trace s' = trace s ++ evs
      /\ Forall P evs.
Proof.
  intros Hstep.
  induction inputs as [| inp rest IH]; intros l s.
  - exists l, s, []. cbn. rewrite app_nil_r. auto.
  - destruct (run_cycles_cons w host port inp rest l s)
      as (s1 & _ & Ht & Hrun & _).
    destruct (IH (cycle_loop w host port inp l s) s1)
      as (l' & s' & evs & Hr & Ht' & HP).
    exists l', s', (cycle_events w host port inp l s ++ evs).
    rewrite Hrun. split; [exact Hr |].
    split; [rewrite Ht', Ht; now rewrite app_assoc |].
    apply Forall_app. split; [apply Hstep | exact HP].
Qed.

Lemma status_url_not_reset_url host port :
  String.eqb (get_method (reset_request host port)) "GET" = false.
Proof. reflexivity. Qed.

Lemma count_status_calls_cycle (w : World) host port inp l s :
  count (is_status_call host port) (cycle_events w host port inp l s) = 1.
Proof.
  unfold cycle_events. rewrite !count_app.
  assert (Hreset : count (is_status_call host port)
                     (reset_events w host port (input_thread (typed inp) l) s)
                   = 0).
  { unfold reset_events. destruct (reset_requested _); [| reflexivity].
    unfold count. cbn [filter is_status_call].
    rewrite status_url_not_reset_url, andb_false_r. reflexivity. }
  assert (Hreport : count (is_status_call host port)
                      (report_events (cycle_sample w host port inp l s)
                         (before_poll w host port inp l s)) = 0).
  { unfold report_events, count.
    destruct (is_None _); [reflexivity |].
    destruct (SLOW_RESPONSE_THRESHOLD <? _)%float;
      destruct (is_False _ && is_True _); reflexivity. }
  rewrite Hreset, Hreport. unfold count.
  cbn [filter is_status_call status_request url get_method method data].
  now rewrite !String.eqb_refl.
Qed.

Lemma count_poll_sleeps_cycle (w : World) host port inp l s :
  count is_poll_sleep (cycle_events w host port inp l s) = 1.
Proof.
  unfold cycle_events. rewrite !count_app.
  assert (Hreset : count is_poll_sleep
                     (reset_events w host port (input_thread (typed inp) l) s)
                   = 0).
  { unfold reset_events. destruct (reset_requested _); [| reflexivity].
    now destruct (reset_ok_at _ _ _ _ _). }
  assert (Hreport : count is_poll_sleep
                      (report_events (cycle_sample w host port inp l s)
                         (before_poll w host port inp l s)) = 0).
  { unfold report_events, count.
    destruct (is_None _); [reflexivity |].
    destruct (SLOW_RESPONSE_THRESHOLD <? _)%float;
      destruct (is_False _ && is_True _); reflexivity. }
  rewrite Hreset, Hreport. reflexivity.
Qed.

(** X5: a run of n cycles makes exactly n GET requests to /status and
    sleeps POLL_INTERVAL exactly n times, whatever the polls and the resets
    give: an unreachable device or a failed reset never skips or repeats a
    poll. *)
Theorem run_polls_and_sleeps_once_per_cycle
    (w : World) host port inputs l s :
  exists l' s' evs,
    run_cycles w host port inputs l s = (Return l', s')
    /\ trace s' = trace s ++ evs
    /\ count (is_status_call host port) evs = List.length inputs
    /\ count is_poll_sleep evs = List.length inputs.
Proof.
  destruct (run_cycles_counting w host port (fun _ => True)
              (is_status_call host port) 1
              (fun inp l0 s0 _ =>
                 conj I (count_status_calls_cycle w host port inp l0 s0))
              inputs l s I)
    as (l1 & s1 & evs1 & Hr1 & Ht1 & Hn1 & _).
  destruct (run_cycles_counting w host port (fun _ => True)
              is_poll_sleep 1
              (fun inp l0 s0 _ =>
                 conj I (count_poll_sleeps_cycle w host port inp l0 s0))
              inputs l s I)
    as (l2 & s2 & evs2 & Hr2 & Ht2 & Hn2 & _).
  rewrite Hr1 in Hr2. injection Hr2 as <- <-.
  rewrite Ht1 in Ht2. apply app_inv_head in Ht2. subst evs2.
  exists l1, s1, evs1. repeat split; try assumption; lia.
Qed.

Lemma cycle_events_target_device (w : World) host port inp l s :
  Forall (targets_device host port) (cycle_events w host port inp l s).
Proof.
  unfold cycle_events, reset_events, report_events.
  repeat (apply Forall_app; split).
  - destruct (reset_requested _); [| constructor].
    apply Forall_cons; [split; [now right | reflexivity] |].
    apply Forall_cons; [exact I | constructor].
  - apply Forall_cons; [split; [now left | reflexivity] | constructor].
  - destruct (is_None _); [apply Forall_cons; [exact I | constructor] |].
    apply Forall_app; split.
    + destruct (SLOW_RESPONSE_THRESHOLD <? _)%float;
        [apply Forall_cons; [exact I | constructor] | constructor].
    + destruct (is_False _ && is_True _);
        [apply Forall_cons; [exact I | constructor] | constructor].
  - apply Forall_cons; [exact I | constructor].
Qed.

(** X6: every HTTP request of a run goes to the address the loop was
    started with, is either the GET of /status or the POST of /reset with
    an empty body, and carries the 4-second timeout. *)
Theorem run_requests_target_the_device (w : World) host port inputs l s :
  exists l' s' evs,
    run_cycles w host port inputs l s = (Return l', s')
    /\ trace s' = trace s ++ evs
    /\ Forall (targets_device host port) evs
    /\ url (status_request host port)
       = ("http://" ++ host ++ ":" ++ PyStr.of_int port ++ "/status")%string
    /\ get_method (status_request host port) = "GET"
    /\ data (status_request host port) = None
    /\ default_timeout = 4.0%float.
Proof.
  destruct (run_cycles_Forall w host port (targets_device host port)
              (cycle_events_target_device w host port) inputs l s)
    as (l' & s' & evs & Hr & Ht & HP).
  exists l', s', evs. repeat split; assumption.
Qed.

(** Once the input thread has left its loop it changes nothing. *)
Lemma input_thread_stopped lines l :
  reader_running l = false -> input_thread lines l = l.
Proof.
  intros H. destruct lines as [| line rest]; [reflexivity |].
  cbn. now rewrite H.
Qed.

(** X4: after end of input (the input thread has left its loop) with no
    reset pending, no cycle ever posts a reset again, whatever is typed
    later. *)
Theorem no_reset_after_end_of_input (w : World) host port inputs l s
    (Hstopped : reader_running l = false)
    (Hclear : reset_requested l = false) :
  exists l' s' evs,
    run_cycles w host port inputs l s = (Return l', s')
    /\ trace s' = trace s ++ evs
    /\ count (is_reset_call host port) evs = 0
    /\ reader_running l' = false
    /\ reset_requested l' = false.
Proof.
  destruct (run_cycles_counting w host port
              (fun l0 => reader_running l0 = false
                         /\ reset_requested l0 = false)
              (is_reset_call host port) 0) with (inputs := inputs)
                                                 (l := l) (s := s)
    as (l' & s' & evs & Hr & Ht & Hn & Hrun & Hflag).
  - intros inp l0 s0 [Hr0 Hf0]. split.
    + unfold cycle_loop, report_loop, before_poll, reset_loop.
      rewrite (input_thread_stopped _ _ Hr0), Hf0.
      now destruct (is_None _).
    + rewrite count_reset_calls_cycle, (input_thread_stopped _ _ Hr0).
      now rewrite Hf0.
  - now split.
  - exists l', s', evs. repeat split; assumption.
Qed.

Lemma no_reset_after_end_of_input_witness :
  exists l' s',
    run_cycles Sample.door_left_open Sample.host Sample.port
      [Sample.typing ["r"]; Sample.typing ["reset"]]
      (input_thread [""] initial_loop) initial_state = (Return l', s')
    /\ count (is_reset_call Sample.host Sample.port) (trace s') = 0.
Proof.
  destruct (no_reset_after_end_of_input Sample.door_left_open
              Sample.host Sample.port
              [Sample.typing ["r"]; Sample.typing ["reset"]]
              (input_thread [""] initial_loop) initial_state
              eq_refl eq_refl)
    as (l' & s' & evs & Hr & Ht & Hn & _).
  exists l', s'. split; [exact Hr |]. rewrite Ht. exact Hn.
Defined.

(** Lines that are no reset commands leave the flag and the variable. *)
Lemma input_thread_no_command lines :
  forall l,
    existsb is_reset_command lines = false ->
    reset_requested (input_thread lines l) = reset_requested l.
Proof.
  induction lines as [| line rest IH]; intros l H; cbn; [reflexivity |].
  cbn in H. apply orb_false_iff in H. destruct H as [Hline Hrest].
  destruct (reader_running l); cbn; [| reflexivity].
  destruct (String.eqb line ""); cbn; [reflexivity |].
  rewrite Hline. now apply IH.
Qed.

(** X13: in a run during which no reset is pending or typed, the number
    of "Triggered!" lines printed is the number of false-to-true edges of
    the outcomes polled, unreachable polls passed over, seen from the value
    the variable had at the start: a door left open is reported once, and
    once again each time it closes and reopens. *)
Theorem triggered_lines_count_edges (w : World) host port inputs :
  forall l s,
    reset_requested l = false ->
    Forall (fun inp => no_reset_typed inp = true) inputs ->
    exists l' s' evs,
      run_cycles w host port inputs l s = (Return l', s')
      /\ trace s' = trace s ++ evs
      /\ count is_triggered_event evs
         = count_edges (prev_triggered l) (outcomes w host port inputs l s).
Proof.
  induction inputs as [| inp rest IH]; intros l s Hflag Htyped.
  - exists l, s, []. cbn. rewrite app_nil_r. auto.
  - destruct (run_cycles_cons w host port inp rest l s)
      as (s1 & _ & Ht & Hrun & Hout).
    pose proof (Forall_inv Htyped) as Hinp.
    unfold no_reset_typed in Hinp. apply negb_true_iff in Hinp.
    pose proof (input_thread_no_command (typed inp) l Hinp) as Hkeep.
    rewrite Hflag in Hkeep.
    assert (Hbefore : before_poll w host port inp l s
                      = input_thread (typed inp) l).
    { unfold before_poll, reset_loop. now rewrite Hkeep. }
    assert (Hflag1 : reset_requested (cycle_loop w host port inp l s) = false).
    { unfold cycle_loop, report_loop. rewrite Hbefore.
      now destruct (is_None _). }
    destruct (IH (cycle_loop w host port inp l s) s1 Hflag1
                 (Forall_inv_tail Htyped))
      as (l' & s' & evs & Hr & Ht' & Hn).
    exists l', s', (cycle_events w host port inp l s ++ evs).
    rewrite Hrun. split; [exact Hr |].
    split; [rewrite Ht', Ht; now rewrite app_assoc |].
    rewrite count_app, Hn, Hout. cbn [count_edges].
    unfold count at 1. rewrite filter_triggered_cycle, Hbefore.
    rewrite input_thread_prev.
    unfold cycle_loop, report_loop. rewrite Hbefore.
    destruct (is_None (fst (cycle_sample w host port inp l s))) eqn:Hnone.
    + rewrite input_thread_prev.
      apply is_None_iff in Hnone. rewrite Hnone.
      destruct (edge (prev_triggered l) PyNone) eqn:He; [| reflexivity].
      apply edge_iff in He. destruct He as [_ He]. discriminate.
    + cbn [prev_triggered].
      now destruct (edge (prev_triggered l) _).
Qed.

Lemma triggered_lines_count_edges_witness :
  outcomes Sample.door_left_open Sample.host Sample.port
    [Sample.quiet; Sample.quiet; Sample.quiet; Sample.quiet; Sample.quiet;
     Sample.quiet] initial_loop initial_state
  = [PyBool false; PyBool true; PyNone; PyBool true; PyBool false;
     PyBool true]
  /\ exists l' s',
       run_cycles Sample.door_left_open Sample.host Sample.port
         [Sample.quiet; Sample.quiet; Sample.quiet; Sample.quiet;
          Sample.quiet; Sample.quiet] initial_loop initial_state
       = (Return l', s')
       /\ count is_triggered_event (trace s') = 2.
Proof.
  split; [reflexivity |].
  destruct (triggered_lines_count_edges Sample.door_left_open
              Sample.host Sample.port
              [Sample.quiet; Sample.quiet; Sample.quiet; Sample.quiet;
               Sample.quiet; Sample.quiet] initial_loop initial_state
              eq_refl ltac:(repeat constructor))
    as (l' & s' & evs & Hr & Ht & Hn).
  exists l', s'. split; [exact Hr |]. rewrite Ht. exact Hn.
Defined.

(** X14: a cycle whose poll is unreachable prints the error line with the
    elapsed time, once, and no slow-response line, however long the
    failure took: a request that times out after 4 seconds is reported as
    an error, not as slow. *)
Theorem unreachable_poll_prints_error_not_slow
    (w : World) host port inp l s
    (Hnone : fst (cycle_sample w host port inp l s) = PyNone) :
  exists elapsed l' s' evs,
    snd (cycle_sample w host port inp l s) = elapsed
    /\ cycle w host port inp l s = (Return l', s')
    /\ trace s' = trace s ++ evs
    /\ filter is_error_event evs = [Print (MsgError elapsed)]
    /\ filter is_slow_event evs = []
    /\ filter is_triggered_event evs = [].
Proof.
  destruct (cycle_steps w host port inp l s)
    as (s1 & s2 & s' & _ & _ & Hc & Ht).
  exists (snd (cycle_sample w host port inp l s)),
    (cycle_loop w host port inp l s), s', (cycle_events w host port inp l s).
  repeat (split; [assumption || reflexivity |]).
  split; [| split].
  - unfold cycle_events, reset_events, report_events.
    rewrite Hnone. cbn [is_None]. rewrite !filter_app.
    destruct (reset_requested _); [| reflexivity].
    now destruct (reset_ok_at _ _ _ _ _).
  - rewrite filter_slow_cycle, filter_slow_report. now rewrite Hnone.
  - rewrite filter_triggered_cycle, Hnone.
    destruct (edge _ PyNone) eqn:He; [| reflexivity].
    apply edge_iff in He. destruct He as [_ He]. discriminate.
Qed.

Lemma unreachable_poll_prints_error_not_slow_witness :
  fst (cycle_sample Sample.timing_out Sample.host Sample.port Sample.quiet
         initial_loop initial_state) = PyNone
  /\ exists l' s',
       cycle Sample.timing_out Sample.host Sample.port Sample.quiet
         initial_loop initial_state = (Return l', s')
       /\ filter is_error_event (trace s') = [Print (MsgError 4.0%float)]
       /\ filter is_slow_event (trace s') = [].
Proof.
  split; [reflexivity |].
  destruct (unreachable_poll_prints_error_not_slow Sample.timing_out
              Sample.host Sample.port Sample.quiet initial_loop initial_state
              eq_refl)
    as (elapsed & l' & s' & evs & He & Hc & Ht & Herr & Hslow & _).
  exists l', s'. split; [exact Hc |].
  rewrite Ht. cbn [trace initial_state app]. rewrite Herr, Hslow, <- He.
  split; reflexivity.
Defined.

(** X15: a reset that fails is dropped, not retried: the cycle clears the
    flag before the POST, prints the failure, keeps the previous-triggered
    variable, and the next cycle, when nothing is typed meanwhile, makes no
    reset call. *)
Theorem failed_reset_is_not_retried
    (w : World) host port inp next l s
    (Hflag : reset_requested l = true)
    (Hfail : reset_ok_at w host port default_timeout s = false)
    (Hquiet : no_reset_typed next = true) :
  exists l1 s1 evs1 l2 s2 evs2,
    cycle w host port inp l s = (Return l1, s1)
    /\ trace s1 = trace s ++ evs1
    /\ In (Print MsgResetFailed) evs1
    /\ ~ In (Print MsgResetCleared) evs1
    /\ prev_triggered (before_poll w host port inp l s) = prev_triggered l
    /\ reset_requested l1 = false
    /\ cycle w host port next l1 s1 = (Return l2, s2)
    /\ trace s2 = trace s1 ++ evs2
    /\ count (is_reset_call host port) evs2 = 0.
Proof.
  pose proof (input_thread_keeps_flag (typed inp) l Hflag) as Hset.
  destruct (cycle_steps w host port inp l s)
    as (? & ? & s1 & _ & _ & Hc1 & Ht1).
  set (l1 := cycle_loop w host port inp l s) in *.
  destruct (cycle_steps w host port next l1 s1)
    as (? & ? & s2 & _ & _ & Hc2 & Ht2).
  assert (Hl1 : reset_requested l1 = false).
  { unfold l1, cycle_loop, report_loop, before_poll, reset_loop.
    rewrite Hset. now destruct (is_None _). }
  exists l1, s1, (cycle_events w host port inp l s),
    (cycle_loop w host port next l1 s1), s2,
    (cycle_events w host port next l1 s1).
  repeat (split; [assumption |]).
  split; [| split; [| split; [| split; [assumption |]]]].
  - unfold cycle_events, reset_events. rewrite Hset, Hfail.
    cbn. auto.
  - unfold cycle_events, reset_events, report_events.
    rewrite Hset, Hfail. cbv beta iota. intros H.
    repeat match goal with
           | H : In _ (_ ++ _) |- _ =>
               apply in_app_or in H; destruct H as [H | H]
           | H : In _ (if ?b then _ else _) |- _ => destruct b
           | H : In _ (_ :: _) |- _ => destruct H as [H | H]; [discriminate |]
           | H : In _ [] |- _ => destruct H
           end.
  - unfold before_poll, reset_loop. rewrite Hset, Hfail.
    cbn [prev_triggered]. now rewrite !input_thread_prev.
  - repeat (split; [assumption |]).
    rewrite count_reset_calls_cycle.
    unfold no_reset_typed in Hquiet. apply negb_true_iff in Hquiet.
    now rewrite (input_thread_no_command _ l1 Hquiet), Hl1.
Qed.

Lemma failed_reset_is_not_retried_witness :
  exists l2 s2 evs1 evs2,
    run_cycles Sample.reset_refused Sample.host Sample.port
      [Sample.quiet; Sample.quiet] (mkLoop (PyBool true) true true)
      initial_state = (Return l2, s2)
    /\ trace s2 = evs1 ++ evs2
    /\ In (Print MsgResetFailed) evs1
    /\ count (is_reset_call Sample.host Sample.port) evs2 = 0.
Proof.
  destruct (failed_reset_is_not_retried Sample.reset_refused
              Sample.host Sample.port Sample.quiet Sample.quiet
              (mkLoop (PyBool true) true true) initial_state
              eq_refl eq_refl eq_refl)
    as (l1 & s1 & evs1 & l2 & s2 & evs2
        & Hc1 & Ht1 & Hin & _ & _ & _ & Hc2 & Ht2 & Hn).
  exists l2, s2, evs1, evs2.
  split; [cbn [run_cycles]; unfold bind; rewrite Hc1, Hc2; reflexivity |].
  split; [rewrite Ht2, Ht1; reflexivity |].
  split; assumption.
Defined.

(* ------------------------------------------------------------------ *)
(** *** The status poller on its own *)

(** X1: when the response body is a JSON object, [get_status] returns the
    value of its "triggered" member, or [False] when the object has no such
    member, whatever the status code of the response; the elapsed time is
    taken before the body is parsed (second reading of the clock minus the
    first), and the clock is read exactly twice. *)
Theorem get_status_reads_triggered_member
    (w : World) host port timeout s resp raw text d
    (Hopen : urlopen w (net_calls s) (status_request host port) timeout
             = inr resp)
    (Hread : read resp = inr raw)
    (Hdecode : decode w raw = inr text)
    (Hjson : json_loads w text = inr (PyDict d)) :
  exists v s',
    get_status w host port timeout s
    = (Return (v, (monotonic w (S (clock_reads s))
                   - monotonic w (clock_reads s))%float), s')
    /\ clock_reads s' = clock_reads s + 2
    /\ (forall u, dict_lookup d "triggered" = Some u -> v = u)
    /\ (dict_lookup d "triggered" = None -> v = PyBool false).
Proof.
  rewrite get_status_eq.
  unfold sample_at, sample_reads, fetch_text, parse_triggered.
  rewrite Hopen, Hread, Hdecode, Hjson.
  do 2 eexists. split; [reflexivity |]. cbn [clock_reads].
  split; [reflexivity |].
  destruct (dict_lookup d "triggered") as [u |]; split; congruence.
Qed.

Lemma get_status_reads_triggered_member_witness :
  exists elapsed s',
    get_status Sample.no_field Sample.host Sample.port default_timeout
      initial_state = (Return (PyBool false, elapsed), s').
Proof.
  destruct (get_status_reads_triggered_member Sample.no_field
              Sample.host Sample.port default_timeout initial_state
              (mkResponse 200 (inr (list_byte_of_string "{}")))
              (list_byte_of_string "{}") "{}" []
              eq_refl eq_refl eq_refl eq_refl)
    as (v & s' & Hg & _ & _ & Hdefault).
  rewrite (Hdefault eq_refl) in Hg. eauto.
Defined.

(** X2: whatever happens, one call of [get_status] makes exactly one call
    of urlopen, a GET without body of http://host:port/status with the
    timeout it was given, and prints nothing: the caller does all the
    reporting. *)
Theorem get_status_makes_one_get (w : World) host port timeout s :
  exists sample s',
    get_status w host port timeout s = (Return sample, s')
    /\ net_calls s' = S (net_calls s)
    /\ trace s' = trace s ++ [Urlopen (status_request host port) timeout]
    /\ url (status_request host port)
       = ("http://" ++ host ++ ":" ++ PyStr.of_int port ++ "/status")%string
    /\ get_method (status_request host port) = "GET"
    /\ data (status_request host port) = None
    /\ (clock_reads s' = clock_reads s + 2
        \/ clock_reads s' = clock_reads s + 3).
Proof.
  rewrite get_status_eq. do 2 eexists.
  split; [reflexivity |]. cbn [net_calls trace clock_reads].
  repeat split. unfold sample_reads.
  destruct (fetch_text _ _ _ _); [now left |].
  destruct (parse_triggered _ _); [now right | now left].
Qed.

(* ------------------------------------------------------------------ *)
(** *** The commands of the input thread *)

Lemma lstrip_pad pad :
  forall s, all_space pad = true ->
            PyStr.lstrip (pad ++ s)%string = PyStr.lstrip s.
Proof.
  induction pad as [| c pad IH]; intros s H; [reflexivity |].
  cbn in *. apply andb_true_iff in H. destruct H as [Hc Hpad].
  rewrite Hc. now apply IH.
Qed.

Lemma lstrip_solid core rest :
  solid core = true -> PyStr.lstrip (core ++ rest)%string = (core ++ rest)%string.
Proof.
  destruct core as [| c core]; [discriminate |].
  intros H. apply andb_true_iff in H. destruct H as [Hc _].
  cbn. apply negb_true_iff in Hc. now rewrite Hc.
Qed.

Lemma rstrip_pad pad : all_space pad = true -> PyStr.rstrip pad = EmptyString.
Proof.
  induction pad as [| c pad IH]; intros H; [reflexivity |].
  cbn in *. apply andb_true_iff in H. destruct H as [Hc Hpad].
  now rewrite (IH Hpad), Hc.
Qed.

Lemma rstrip_solid core pad :
  ends_solid core = true -> all_space pad = true ->
  PyStr.rstrip (core ++ pad)%string = core.
Proof.
  intros Hcore Hpad.
  induction core as [| c core IH]; [discriminate |].
  destruct core as [| c' core].
  - cbn in *. rewrite (rstrip_pad pad Hpad).
    apply negb_true_iff in Hcore. now rewrite Hcore.
  - change (ends_solid (String c (String c' core)))
      with (ends_solid (String c' core)) in Hcore.
    specialize (IH Hcore).
    change (PyStr.rstrip (String c (String c' core) ++ pad)%string)
      with (match PyStr.rstrip (String c' core ++ pad)%string with
            | EmptyString =>
                if PyStr.isspace c then EmptyString else String c EmptyString
            | r => String c r
            end).
    now rewrite IH.
Qed.

Lemma strip_all_space pad :
  all_space pad = true -> PyStr.strip pad = EmptyString.
Proof.
  intros H. unfold PyStr.strip.
  assert (Hl : PyStr.lstrip pad = EmptyString).
  { induction pad as [| c pad IH]; [reflexivity |].
    cbn in *. apply andb_true_iff in H. destruct H as [Hc Hpad].
    rewrite Hc. now apply IH. }
  now rewrite Hl.
Qed.

Lemma strip_padded pad1 core pad2 :
  all_space pad1 = true -> solid core = true -> all_space pad2 = true ->
  PyStr.strip (pad1 ++ core ++ pad2)%string = core.
Proof.
  intros H1 Hcore H2. unfold PyStr.strip.
  rewrite (lstrip_pad pad1 _ H1), (lstrip_solid core pad2 Hcore).
  apply rstrip_solid; [| exact H2].
  destruct core; [discriminate |].
  apply andb_true_iff in Hcore. now destruct Hcore.
Qed.

(** X3: a typed line is a reset command exactly when what is left after
    removing the whitespace around it is "r" or "reset" in any mix of
    cases; a line of whitespace only (a bare newline) is no command, and
    unlike the empty line of end of input it keeps the input thread
    reading. *)
Theorem reset_command_ignores_case_and_padding pad1 core pad2 l
    (Hpad1 : all_space pad1 = true)
    (Hcore : solid core = true)
    (Hpad2 : all_space pad2 = true) :
  is_reset_command (pad1 ++ core ++ pad2)%string
  = (String.eqb (PyStr.lower core) "r"
     || String.eqb (PyStr.lower core) "reset")
  /\ is_reset_command pad1 = false
  /\ (reader_running l = true -> pad1 <> EmptyString ->
      input_thread [pad1] l = l).
Proof.
  split; [| split].
  - unfold is_reset_command. now rewrite strip_padded.
  - unfold is_reset_command. now rewrite (strip_all_space pad1 Hpad1).
  - intros Hrun Hne. cbn. rewrite Hrun. cbn.
    destruct (String.eqb pad1 "") eqn:He;
      [apply String.eqb_eq in He; contradiction |].
    assert (Hno : is_reset_command pad1 = false)
      by (unfold is_reset_command; now rewrite (strip_all_space pad1 Hpad1)).
    now rewrite Hno.
Qed.

Lemma reset_command_ignores_case_and_padding_witness :
  is_reset_command (Sample.line "  ReSeT ") = true
  /\ is_reset_command (Sample.line "") = false.
Proof.
  destruct (reset_command_ignores_case_and_padding
              "  " "ReSeT" (Sample.line " ") initial_loop
              eq_refl eq_refl eq_refl) as (Hcmd & _ & _).
  destruct (reset_command_ignores_case_and_padding
              (Sample.line "") "r" "" initial_loop
              eq_refl eq_refl eq_refl) as (_ & Hblank & _).
  split; [exact Hcmd | exact Hblank].
Defined.

(* ------------------------------------------------------------------ *)
(** *** More on discovery *)

(** The two ways out of the wait loop: it returns after some sleeps, the
    browser cancelled and the session closed; or the interrupt comes, after
    as many sleeps as there were tests, and nothing is cancelled or
    closed. It makes no HTTP request. *)
Lemma discover_wait_shape (w : World) deadline late_ads :
  forall tests result s,
    exists k s',
      k <= List.length tests
      /\ net_calls s' = net_calls s
      /\ ((exists r,
              discover_wait w deadline tests late_ads result s
              = (Return r, s')
              /\ trace s' = trace s ++ repeat (Sleep 0.2%float) k
                                    ++ [BrowserCancel; ZeroconfClose])
          \/ (discover_wait w deadline tests late_ads result s
              = (Raise KeyboardInterrupt, s')
              /\ trace s' = trace s ++ repeat (Sleep 0.2%float) k)).
Proof.
  induction tests as [| batch rest IH]; intros result s.
  - exists 0, s. split; [reflexivity |]. split; [reflexivity |].
    right. split; [reflexivity |]. cbn. now rewrite app_nil_r.
  - cbn [discover_wait].
    destruct (browser_thread batch result) as [a |].
    + exists 0, (mkState (clock_reads s) (net_calls s)
                   ((trace s ++ [BrowserCancel]) ++ [ZeroconfClose])).
      split; [cbn; lia |]. split; [reflexivity |].
      left. exists (Some a). split; [reflexivity |].
      cbn. now rewrite <- app_assoc.
    + unfold bind, time_monotonic, time_sleep, emit. cbv beta iota.
      destruct (monotonic w (clock_reads s) <? deadline)%float.
      * cbn [clock_reads net_calls trace].
        destruct (IH None (mkState (S (clock_reads s)) (net_calls s)
                             (trace s ++ [Sleep 0.2%float])))
          as (k & s' & Hk & Hn & Hcase).
        exists (S k), s'. split; [cbn; lia |]. split; [exact Hn |].
        cbn [trace repeat] in *.
        destruct Hcase as [(r & Hw & Ht) | (Hw & Ht)]; [left | right].
        -- exists r. split; [exact Hw |]. rewrite Ht.
           now rewrite <- !app_assoc.
        -- split; [exact Hw |]. rewrite Ht. now rewrite <- !app_assoc.
      * exists 0, (mkState (S (clock_reads s)) (net_calls s)
                     ((trace s ++ [BrowserCancel]) ++ [ZeroconfClose])).
        split; [cbn; lia |]. split; [reflexivity |].
        left. eexists. split; [reflexivity |].
        cbn. now rewrite <- app_assoc.
Qed.

(** X8: whenever [discover_device] returns, found or not, it has opened
    one session and one browser, cancelled the browser and closed the
    session, in this order, with only sleeps of 0.2 seconds in between
    (fewer than there were tests of the loop), and has made no HTTP
    request. *)
Theorem discover_device_cleans_up_on_return (w : World) ads s r s'
    (Hret : discover_device w ads s = (Return r, s')) :
  exists k,
    k <= List.length (ticks ads)
    /\ trace s' = trace s ++ [ZeroconfOpen; BrowserStart SERVICE_TYPE]
                          ++ repeat (Sleep 0.2%float) k
                          ++ [BrowserCancel; ZeroconfClose]
    /\ net_calls s' = net_calls s.
Proof.
  rewrite discover_device_unfold in Hret.
  destruct (discover_wait_shape w
              (monotonic w (clock_reads s) + DISCOVERY_TIMEOUT)%float
              (late ads) (ticks ads) None
              (mkState (S (clock_reads s)) (net_calls s)
                 (trace s ++ [ZeroconfOpen; BrowserStart SERVICE_TYPE])))
    as (k & s1 & Hk & Hn & [(r1 & Hw & Ht) | (Hw & _)]);
    rewrite Hw in Hret; [| discriminate].
  injection Hret as _ <-.
  exists k. split; [exact Hk |]. split; [| exact Hn].
  rewrite Ht. cbn [trace]. now rewrite <- !app_assoc.
Qed.

Lemma discover_device_cleans_up_on_return_witness :
  exists r s' k,
    discover_device Sample.slow_clock Sample.nobody_home initial_state
    = (Return r, s')
    /\ trace s' = [ZeroconfOpen; BrowserStart SERVICE_TYPE]
                  ++ repeat (Sleep 0.2%float) k
                  ++ [BrowserCancel; ZeroconfClose].
Proof.
  exists None,
    (snd (discover_device Sample.slow_clock Sample.nobody_home
            initial_state)).
  destruct (discover_device_cleans_up_on_return Sample.slow_clock
              Sample.nobody_home initial_state None
              (snd (discover_device Sample.slow_clock Sample.nobody_home
                      initial_state)) eq_refl)
    as (k & _ & Ht & _).
  exists k. split; [reflexivity |]. exact Ht.
Defined.

(** X9: an interrupt during discovery (the tests of the loop run out
    with nothing accepted and the deadline not reached) is not caught:
    [discover_device] raises KeyboardInterrupt without cancelling the
    browser or closing the session, and [main], which calls it outside its
    try block, lets the interrupt through without printing the farewell
    and without a single HTTP request. *)
Theorem interrupt_during_discovery_escapes_main
    (w : World) tests late_ads inputs s
    (Hnone : Forall (fun b => browser_thread b None = None) tests)
    (Hclock : forall i, i < List.length tests ->
        (monotonic w (S (clock_reads s) + i)
         <? monotonic w (clock_reads s) + DISCOVERY_TIMEOUT)%float = true) :
  exists s' evs,
    main w (mkAdverts tests late_ads) inputs s = (Raise KeyboardInterrupt, s')
    /\ trace s' = trace s ++ evs
    /\ evs = [Print MsgDiscovering; ZeroconfOpen; BrowserStart SERVICE_TYPE]
             ++ repeat (Sleep 0.2%float) (List.length tests)
    /\ ~ In (Print MsgBye) evs
    /\ ~ In BrowserCancel evs
    /\ ~ In ZeroconfClose evs
    /\ net_calls s' = net_calls s.
Proof.
  assert (Hwait : forall tests0 s0,
             Forall (fun b => browser_thread b None = None) tests0 ->
             (forall i, i < List.length tests0 ->
                 (monotonic w (clock_reads s0 + i)
                  <? monotonic w (clock_reads s) + DISCOVERY_TIMEOUT)%float
                 = true) ->
             exists s1,
               discover_wait w
                 (monotonic w (clock_reads s) + DISCOVERY_TIMEOUT)%float
                 tests0 late_ads None s0 = (Raise KeyboardInterrupt, s1)
               /\ net_calls s1 = net_calls s0
               /\ trace s1 = trace s0
                             ++ repeat (Sleep 0.2%float) (List.length tests0)).
  { induction tests0 as [| b rest IH]; intros s0 Hn Hc.
    - exists s0. cbn. rewrite app_nil_r. auto.
    - cbn [discover_wait]. rewrite (Forall_inv Hn).
      pose proof (Hc 0 ltac:(cbn; lia)) as Hnow.
      rewrite Nat.add_0_r in Hnow.
      unfold bind, time_monotonic, time_sleep, emit. cbv beta iota.
      rewrite Hnow. cbn [clock_reads net_calls trace].
      destruct (IH (mkState (S (clock_reads s0)) (net_calls s0)
                      (trace s0 ++ [Sleep 0.2%float]))
                   (Forall_inv_tail Hn)) as (s1 & Hw & Hn1 & Ht1).
      + intros i Hi. cbn [clock_reads].
        replace (S (clock_reads s0) + i) with (clock_reads s0 + S i) by lia.
        apply Hc. cbn. lia.
      + exists s1. split; [exact Hw |]. split; [exact Hn1 |].
        rewrite Ht1. cbn [trace List.length repeat].
        now rewrite <- !app_assoc. }
  destruct (Hwait tests
              (mkState (S (clock_reads s)) (net_calls s)
                 ((trace s ++ [Print MsgDiscovering])
                  ++ [ZeroconfOpen; BrowserStart SERVICE_TYPE]))
              Hnone Hclock) as (s1 & Hw & Hn1 & Ht1).
  exists s1, ([Print MsgDiscovering; ZeroconfOpen; BrowserStart SERVICE_TYPE]
              ++ repeat (Sleep 0.2%float) (List.length tests)).
  split.
  { unfold main. unfold bind at 1. unfold print at 1. unfold emit at 1.
    unfold bind at 1. rewrite discover_device_unfold.
    cbn [ticks late clock_reads net_calls trace]. now rewrite Hw. }
  split; [rewrite Ht1; cbn [trace]; now rewrite <- !app_assoc |].
  split; [reflexivity |].
  assert (Hsleeps : forall e n,
             In e (repeat (Sleep 0.2%float) n) -> e = Sleep 0.2%float)
    by (intros e n; apply repeat_spec).
  repeat split; try exact Hn1;
    intros [H | [H | [H | H]]]; try discriminate;
    apply Hsleeps in H; discriminate.
Qed.

Lemma interrupt_during_discovery_escapes_main_witness :
  exists s',
    main Sample.slow_clock Sample.interrupted [Sample.quiet] initial_state
    = (Raise KeyboardInterrupt, s')
    /\ ~ In (Print MsgBye) (trace s').
Proof.
  destruct (interrupt_during_discovery_escapes_main Sample.slow_clock
              [[Sample.printer]; []] [] [Sample.quiet] initial_state)
    as (s' & evs & Hmain & Ht & _ & Hbye & _).
  - repeat constructor.
  - intros [| [| i]] Hi; [reflexivity | reflexivity | cbn in Hi; lia].
  - exists s'. split; [exact Hmain |]. rewrite Ht. exact Hbye.
Defined.

(** X10: the result cell is read after the loop: a candidate accepted
    between the last test of the deadline and the cancelling of the browser
    is returned although the deadline has passed, and [main] goes on to
    poll it instead of exiting. *)
Theorem late_match_is_returned_after_deadline
    (w : World) pre last rest late_ads inputs s host port
    (Hpre : Forall (fun b => browser_thread b None = None) pre)
    (Hlast : browser_thread last None = None)
    (Hlate : browser_thread late_ads None = Some (host, port))
    (Hclock : forall i, i < List.length pre ->
        (monotonic w (S (clock_reads s) + i)
         <? monotonic w (clock_reads s) + DISCOVERY_TIMEOUT)%float = true)
    (Hpast :
        (monotonic w (S (clock_reads s) + List.length pre)
         <? monotonic w (clock_reads s) + DISCOVERY_TIMEOUT)%float = false) :
  (exists s',
      discover_device w (mkAdverts (pre ++ last :: rest) late_ads) s
      = (Return (Some (host, port)), s'))
  /\ (exists s',
         main w (mkAdverts (pre ++ last :: rest) late_ads) inputs s
         = (Return tt, s')
         /\ In (Print (MsgFound host port)) (trace s')
         /\ count (is_status_call host port) (trace s')
            >= List.length inputs).
Proof.
  assert (Hdisc : forall tr,
             exists s',
               discover_device w (mkAdverts (pre ++ last :: rest) late_ads)
                 (mkState (clock_reads s) (net_calls s) tr)
               = (Return (Some (host, port)), s')).
  { intros tr. rewrite discover_device_unfold.
    cbn [ticks late clock_reads net_calls trace].
    destruct (discover_wait_timeout w
                (monotonic w (clock_reads s) + DISCOVERY_TIMEOUT)%float
                last rest late_ads Hlast pre
                (mkState (S (clock_reads s)) (net_calls s)
                   (tr ++ [ZeroconfOpen; BrowserStart SERVICE_TYPE])))
      as (s' & Hw & _); [exact Hpre | exact Hclock | exact Hpast |].
    rewrite Hlate in Hw. now exists s'. }
  split.
  - destruct (Hdisc (trace s)) as (s' & Hd). destruct s. now exists s'.
  - destruct (Hdisc (trace s ++ [Print MsgDiscovering])) as (s1 & Hd).
    destruct (main_polls w _ inputs s host port s1 Hd) as (l & s2 & Hrun & Hm).
    eexists. split; [exact Hm |]. cbn [trace].
    destruct (run_cycles_counting w host port (fun _ => True)
                (is_status_call host port) 1
                (fun inp l0 s0 _ =>
                   conj I (count_status_calls_cycle w host port inp l0 s0))
                inputs initial_loop
                (mkState (clock_reads s1) (net_calls s1)
                   (trace s1 ++ [Print (MsgFound host port);
                                 Print MsgPollingHelp; Print MsgBlank]))
                I)
      as (l' & s2' & evs & Hr & Ht & Hn & _).
    rewrite Hrun in Hr. injection Hr as <- <-.
    rewrite Ht. cbn [trace]. split.
    + rewrite !in_app_iff. left. left. right. now left.
    + rewrite !count_app, Hn. lia.
Qed.

Lemma late_match_is_returned_after_deadline_witness :
  exists s',
    discover_device Sample.slow_clock Sample.late_arrival initial_state
    = (Return (Some ("192.168.1.50", 80%Z)), s').
Proof.
  destruct (late_match_is_returned_after_deadline Sample.slow_clock
              [[]; []] [] [[]] [Sample.doormon] [Sample.quiet] initial_state
              "192.168.1.50" 80%Z)
    as (Hd & _).
  - repeat constructor.
  - reflexivity.
  - reflexivity.
  - intros [| [| i]] Hi; [reflexivity | reflexivity | cbn in Hi; lia].
  - reflexivity.
  - exact Hd.
Defined.

(** X11: the loop tests the result cell before the clock: a candidate
    accepted by the first test is returned at once, without a sleep and
    with the clock read only once (for the deadline), whatever the clock
    says. *)
Theorem match_at_first_test_needs_no_clock
    (w : World) batch rest late_ads a s
    (Hbatch : browser_thread batch None = Some a) :
  exists s',
    discover_device w (mkAdverts (batch :: rest) late_ads) s
    = (Return (Some a), s')
    /\ clock_reads s' = S (clock_reads s)
    /\ trace s' = trace s ++ [ZeroconfOpen; BrowserStart SERVICE_TYPE;
                             BrowserCancel; ZeroconfClose].
Proof.
  rewrite discover_device_unfold. cbn [ticks late discover_wait].
  rewrite Hbatch. unfold_py; cbn.
  eexists. split; [reflexivity |]. cbn.
  split; [reflexivity |]. now rewrite <- !app_assoc.
Qed.

Lemma match_at_first_test_needs_no_clock_witness :
  exists s',
    discover_device (Sample.world [] []) 
      (mkAdverts [[Sample.other_doormon]] []) initial_state
    = (Return (Some ("10.0.0.2", 8080%Z)), s')
    /\ clock_reads s' = 1.
Proof.
  destruct (match_at_first_test_needs_no_clock (Sample.world [] [])
              [Sample.other_doormon] [] [] ("10.0.0.2", 8080%Z)
              initial_state eq_refl)
    as (s' & Hd & Hc & _).
  exists s'. split; assumption.
Defined.

Lemma first_ipv4_map_Some l :
  first_ipv4 (map Some l)
  = find (fun b => (List.length b =? 4)%nat) l.
Proof.
  induction l as [| b l IH]; [reflexivity |].
  cbn. now destruct (List.length b =? 4)%nat.
Qed.

(** X12: where the listener takes the address from. When the record's
    [addresses] is a non-empty list, the answer is its first 4-byte entry
    and the old [address] attribute is not looked at, so a record listing
    only IPv6 addresses is passed over; when [addresses] is missing or
    empty, the answer is [address] if it is present, not [None] and 4 bytes
    long. *)
Theorem listener_address_source ad info
    (Hinfo : service_info ad = Some info)
    (Hname : PyStr.contains (PyStr.lower INSTANCE_NAME)
               (PyStr.lower (name ad)) = true) :
  (forall a rest,
      addresses info = Some (a :: rest) ->
      add_service None ad
      = option_map (fun b => (inet_ntoa b, port_or_80 info))
          (find (fun b => (List.length b =? 4)%nat) (a :: rest)))
  /\ (addresses info = None \/ addresses info = Some [] ->
      add_service None ad
      = match address info with
        | Some (Some b) =>
            if (List.length b =? 4)%nat
            then Some (inet_ntoa b, port_or_80 info) else None
        | _ => None
        end).
Proof.
  unfold add_service. rewrite Hinfo, Hname. cbn [negb].
  unfold addrs_of. split.
  - intros a rest ->. rewrite first_ipv4_map_Some.
    now destruct (find _ (a :: rest)).
  - intros [-> | ->]; destruct (address info) as [[b |] |]; cbn;
      try reflexivity; now destruct (List.length b =? 4)%nat.
Qed.

Lemma listener_address_source_witness :
  add_service None Sample.ipv6_first = None
  /\ add_service None Sample.old_style = Some ("192.168.1.50", 8080%Z).
Proof.
  destruct (listener_address_source Sample.ipv6_first
              (mkServiceInfo
                 (Some [[xfe; x80; x00; x00; x00; x00; x00; x00;
                         x00; x00; x00; x00; x00; x00; x00; x01]])
                 (Some (Some [xc0; xa8; x01; x32])) (Some 80%Z))
              eq_refl eq_refl) as [Hnew _].
  destruct (listener_address_source Sample.old_style
              (mkServiceInfo None (Some (Some [xc0; xa8; x01; x32]))
                 (Some 8080%Z))
              eq_refl eq_refl) as [_ Hold].
  split.
  - rewrite (Hnew _ _ eq_refl). reflexivity.
  - rewrite (Hold (or_introl eq_refl)). reflexivity.
Defined.

(* ------------------------------------------------------------------ *)
(** *** [main] as a whole *)

(** X7: once the device is found nothing but the interrupt ends [main]:
    whatever the network and the device do during the run, each input
    yields one poll, and at the interrupt [main] prints the farewell as its
    last line and returns normally. *)
Theorem main_polls_until_interrupted
    (w : World) ads inputs s host port s1
    (Hfound : discover_device w ads
                (mkState (clock_reads s) (net_calls s)
                   (trace s ++ [Print MsgDiscovering]))
              = (Return (Some (host, port)), s1)) :
  exists s' evs,
    main w ads inputs s = (Return tt, s')
    /\ trace s' = trace s1
                  ++ [Print (MsgFound host port); Print MsgPollingHelp;
                      Print MsgBlank]
                  ++ evs ++ [Print MsgBye]
    /\ count (is_status_call host port) evs = List.length inputs
    /\ Forall (targets_device host port) evs
    /\ ~ In (Print MsgBye) evs.
Proof.
  destruct (main_polls w ads inputs s host port s1 Hfound)
    as (l & s2 & Hrun & Hm).
  set (s0 := mkState (clock_reads s1) (net_calls s1)
               (trace s1 ++ [Print (MsgFound host port);
                             Print MsgPollingHelp; Print MsgBlank])) in *.
  destruct (run_cycles_counting w host port (fun _ => True)
              (is_status_call host port) 1
              (fun inp l0 s0 _ =>
                 conj I (count_status_calls_cycle w host port inp l0 s0))
              inputs initial_loop s0 I)
    as (l1 & s3 & evs & Hr & Ht & Hn & _).
  rewrite Hrun in Hr. injection Hr as <- <-.
  destruct (run_cycles_Forall w host port (targets_device host port)
              (cycle_events_target_device w host port) inputs initial_loop s0)
    as (l2 & s4 & evs2 & Hr2 & Ht2 & HP).
  rewrite Hrun in Hr2. injection Hr2 as <- <-.
  rewrite Ht in Ht2. apply app_inv_head in Ht2. subst evs2.
  destruct (run_cycles_Forall w host port
              (fun e => e <> Print MsgBye)) with (inputs := inputs)
              (l := initial_loop) (s := s0)
    as (l3 & s5 & evs3 & Hr3 & Ht3 & HB).
  { intros inp l0 s6. unfold cycle_events, reset_events, report_events.
    repeat (apply Forall_app; split);
      repeat match goal with
             | |- Forall _ (if ?b then _ else _) => destruct b
             | |- Forall _ (_ :: _) =>
                 apply Forall_cons;
                 [cbv beta;
                  first [discriminate
                        | destruct (reset_ok_at w host port default_timeout s6);
                          discriminate] |]
             | |- Forall _ [] => constructor
             | |- Forall _ (_ ++ _) => apply Forall_app; split
             end. }
  rewrite Hrun in Hr3. injection Hr3 as <- <-.
  rewrite Ht in Ht3. apply app_inv_head in Ht3. subst evs3.
  eexists. exists evs. split; [exact Hm |]. cbn [trace].
  split; [rewrite Ht; unfold s0; cbn [trace]; now rewrite <- !app_assoc |].
  split; [lia |]. split; [exact HP |].
  intros Hin. rewrite Forall_forall in HB. now apply (HB _ Hin).
Qed.

Lemma main_polls_until_interrupted_witness :
  exists s',
    main Sample.slow_clock Sample.found_at_second_test
      [Sample.quiet; Sample.quiet] initial_state = (Return tt, s')
    /\ last (trace s') ZeroconfOpen = Print MsgBye.
Proof.
  destruct (main_polls_until_interrupted Sample.slow_clock
              Sample.found_at_second_test [Sample.quiet; Sample.quiet]
              initial_state "192.168.1.50" 80%Z
              (snd (discover_device Sample.slow_clock
                      Sample.found_at_second_test
                      (mkState 0 0 [Print MsgDiscovering])))
              eq_refl)
    as (s' & evs & Hm & Ht & _).
  exists s'. split; [exact Hm |].
  rewrite Ht, !app_assoc. apply last_last.
Defined.

(** X16: a cycle in which nothing happens is silent: with no reset
    pending or typed, a reachable sample that is not slow and no edge, the
    cycle's only effects are the GET of /status and the sleep, and the
    sample becomes the previous-triggered variable. *)
Theorem steady_cycle_prints_nothing (w : World) host port inp l s
    (Hflag : reset_requested l = false)
    (Htyped : no_reset_typed inp = true)
    (Hreach : fst (cycle_sample w host port inp l s) <> PyNone)
    (Hfast : (SLOW_RESPONSE_THRESHOLD
              <? snd (cycle_sample w host port inp l s))%float = false)
    (Hsame : edge (prev_triggered l) (fst (cycle_sample w host port inp l s))
             = false) :
  exists l' s',
    cycle w host port inp l s = (Return l', s')
    /\ trace s' = trace s ++ [Urlopen (status_request host port)
                                default_timeout;
                              Sleep POLL_INTERVAL]
    /\ prev_triggered l' = fst (cycle_sample w host port inp l s)
    /\ reset_requested l' = false.
Proof.
  destruct (cycle_steps w host port inp l s)
    as (? & ? & s' & _ & _ & Hc & Ht).
  unfold no_reset_typed in Htyped. apply negb_true_iff in Htyped.
  pose proof (input_thread_no_command (typed inp) l Htyped) as Hkeep.
  rewrite Hflag in Hkeep.
  assert (Hbefore : before_poll w host port inp l s
                    = input_thread (typed inp) l).
  { unfold before_poll, reset_loop. now rewrite Hkeep. }
  assert (Hnone : is_None (fst (cycle_sample w host port inp l s)) = false).
  { destruct (is_None _) eqn:H; [| reflexivity].
    apply is_None_iff in H. contradiction. }
  exists (cycle_loop w host port inp l s), s'.
  split; [exact Hc |]. split; [| split].
  - rewrite Ht. unfold cycle_events, reset_events, report_events.
    rewrite Hkeep, Hnone, Hfast, Hbefore, input_thread_prev.
    unfold edge in Hsame. now rewrite Hsame.
  - unfold cycle_loop, report_loop. now rewrite Hnone.
  - unfold cycle_loop, report_loop. rewrite Hnone, Hbefore. exact Hkeep.
Qed.

Lemma steady_cycle_prints_nothing_witness :
  exists l' s',
    cycle Sample.away_and_back Sample.host Sample.port Sample.quiet
      initial_loop initial_state = (Return l', s')
    /\ trace s' = [Urlopen (status_request Sample.host Sample.port)
                     default_timeout;
                   Sleep POLL_INTERVAL]
    /\ prev_triggered l' = PyBool false.
Proof.
  destruct (steady_cycle_prints_nothing Sample.away_and_back
              Sample.host Sample.port Sample.quiet initial_loop initial_state
              eq_refl eq_refl ltac:(cbv; discriminate) eq_refl eq_refl)
    as (l' & s' & Hc & Ht & Hp & _).
  exists l', s'. repeat split; assumption.
Defined.

(** X17: a pending reset is posted, and its result printed, before the
    poll of the same cycle: the status request comes third, so the sample
    of that cycle is taken from the device after the reset. *)
Theorem reset_precedes_poll_in_cycle (w : World) host port inp l s
    (Hflag : reset_requested l = true) :
  exists l' s' msg rest,
    cycle w host port inp l s = (Return l', s')
    /\ trace s' = trace s
                  ++ [Urlopen (reset_request host port) default_timeout;
                      Print msg;
                      Urlopen (status_request host port) default_timeout]
                  ++ rest
    /\ (msg = MsgResetCleared \/ msg = MsgResetFailed)
    /\ net_calls s' = net_calls s + 2
    /\ fst (cycle_sample w host port inp l s)
       = fst (sample_at w host port default_timeout
                (mkState (clock_reads s) (S (net_calls s)) (trace s))).
Proof.
  pose proof (input_thread_keeps_flag (typed inp) l Hflag) as Hset.
  destruct (cycle_eq w host port inp l s) as (s' & Hc & Ht & Hn).
  exists (cycle_loop w host port inp l s), s',
    (if reset_ok_at w host port default_timeout s
     then MsgResetCleared else MsgResetFailed),
    (report_events (cycle_sample w host port inp l s)
       (before_poll w host port inp l s) ++ [Sleep POLL_INTERVAL]).
  split; [exact Hc |].
  unfold reset_state in Hn. rewrite Hset in Hn. cbn [net_calls] in Hn.
  split; [| split; [| split]].
  - rewrite Ht. unfold cycle_events, reset_events. rewrite Hset.
    reflexivity.
  - destruct (reset_ok_at _ _ _ _ _); auto.
  - lia.
  - unfold cycle_sample, reset_state. now rewrite Hset.
Qed.

Lemma reset_precedes_poll_in_cycle_witness :
  exists l' s' msg rest,
    cycle Sample.still_triggered Sample.host Sample.port Sample.quiet
      (mkLoop (PyBool true) true true) initial_state = (Return l', s')
    /\ trace s' = [Urlopen (reset_request Sample.host Sample.port)
                     default_timeout;
                   Print msg;
                   Urlopen (status_request Sample.host Sample.port)
                     default_timeout] ++ rest.
Proof.
  destruct (reset_precedes_poll_in_cycle Sample.still_triggered
              Sample.host Sample.port Sample.quiet
              (mkLoop (PyBool true) true true) initial_state eq_refl)
    as (l' & s' & msg & rest & Hc & Ht & _).
  exists l', s', msg, rest. split; [exact Hc | exact Ht].
Defined.
